(** * The user and address CRUD application (index.js), embedded in Rocq

    The route handlers of [index.js] are translated one by one.  A handler is a
    computation over a [World] (the two tables of the storage backend, the
    console, and the failures the backend is going to raise) that ends with the
    response the handler sends.  [try { ... } catch (error) { ... }] is the
    [try_catch] of a small state-and-exception monad.

    JavaScript strings are sequences of UTF-16 code units, JavaScript numbers
    are modelled on the integers (exact for magnitudes up to 2^53 - 1, which is
    where they are exact in JavaScript), together with [NaN] and [Infinity].
    Request fields are what an HTML form or a query string delivers: a string,
    or nothing at all ([undefined]). *)

From Stdlib Require Import ZArith NArith List Lia Bool String Ascii.
From Stdlib Require Import Permutation Sorted.
Import ListNotations.
Local Open Scope Z_scope.

(** ** JavaScript strings *)

Definition code_unit := N.
Definition jstring := list code_unit.

(** A literal of the source text (ASCII only). *)
Definition lit (s : string) : jstring :=
  map N_of_ascii (list_ascii_of_string s).

(** A request field: [None] is [undefined]. *)
Definition field := option jstring.

(** WhiteSpace and LineTerminator of ECMAScript, the characters that
    [String.prototype.trim] and [parseInt] strip. *)
Definition is_whitespace (c : code_unit) : bool :=
  ((9 <=? c) && (c <=? 13) || (c =? 32) || (c =? 160) || (c =? 5760)
   || (8192 <=? c) && (c <=? 8202) || (c =? 8232) || (c =? 8233)
   || (c =? 8239) || (c =? 8287) || (c =? 12288) || (c =? 65279))%N.

Fixpoint trimStart (s : jstring) : jstring :=
  match s with
  | c :: rest => if is_whitespace c then trimStart rest else s
  | [] => []
  end.

Definition trimEnd (s : jstring) : jstring := rev (trimStart (rev s)).

Definition trim (s : jstring) : jstring := trimEnd (trimStart s).

(** [s.length], as a JavaScript number. *)
Definition jlength (s : jstring) : Z := Z.of_nat (List.length s).

(** Truthiness of a field: [undefined] and the empty string are falsy.
    [present f] is the string a truthy field holds. *)
Definition present (f : field) : option jstring :=
  match f with
  | Some (c :: rest) => Some (c :: rest)
  | Some [] => None
  | None => None
  end.

Definition truthy (f : field) : bool :=
  match present f with Some _ => true | None => false end.

(** ToString, as a template literal [`${f}`] applies it. *)
Definition ToString (f : field) : jstring :=
  match f with
  | Some s => s
  | None => lit "undefined"
  end.

(** [f === 'text'] *)
Definition strict_eq (f : field) (text : jstring) : bool :=
  match f with
  | Some s => if list_eq_dec N.eq_dec s text then true else false
  | None => false
  end.

(** [f || ''] *)
Definition or_empty (f : field) : jstring :=
  match present f with Some s => s | None => [] end.

(** ** JavaScript numbers *)

(** [Number.MAX_SAFE_INTEGER], 2^53 - 1: up to this magnitude the numbers of
    JavaScript are the integers, and the arithmetic of the handlers is
    exact.  Beyond it [parseInt] and the operators round. *)
Definition max_safe_integer : Z := 9007199254740991.

Definition safe_integer (z : Z) : Prop :=
  - max_safe_integer <= z <= max_safe_integer.

(** The longest array there is: 2^32 - 1 entries. *)
Definition max_array_length : Z := 4294967295.

(** What [parseInt] returns: an integer or [NaN]. *)
Inductive Number :=
| NaN
| Num (z : Z).

(** What [Math.ceil] of a quotient of integers is: an integer, or [NaN] or
    [Infinity] when the divisor is zero. *)
Inductive ceiling :=
| Ceil (z : Z)
| CeilInfinity
| CeilNaN.

Definition decimal_digit (c : code_unit) : option Z :=
  if ((48 <=? c) && (c <=? 57))%N then Some (Z.of_N c - 48) else None.

Definition hex_digit (c : code_unit) : option Z :=
  if ((48 <=? c) && (c <=? 57))%N then Some (Z.of_N c - 48)
  else if ((97 <=? c) && (c <=? 102))%N then Some (Z.of_N c - 87)
  else if ((65 <=? c) && (c <=? 70))%N then Some (Z.of_N c - 55)
  else None.

(** The longest prefix of [s] made of digits, as their values. *)
Fixpoint leading_digits (digit : code_unit -> option Z) (s : jstring) : list Z :=
  match s with
  | c :: rest =>
      match digit c with
      | Some d => d :: leading_digits digit rest
      | None => []
      end
  | [] => []
  end.

Definition digits_value (radix : Z) (ds : list Z) : Z :=
  fold_left (fun acc d => acc * radix + d) ds 0.

(** [parseInt(f)] with no radix argument: leading white space is skipped, a
    sign is read, a [0x] or [0X] prefix selects radix 16, and the digits that
    follow are read up to the first character that is not one.  No digit at
    all gives [NaN]; this is what [undefined] (read as the text "undefined")
    gives.  A parsed [-0] is the integer [0]: both are falsy.  The result is
    the integer that is written; it is what JavaScript returns as long as
    that integer is a [safe_integer], beyond which JavaScript rounds. *)
Definition parseInt (f : field) : Number :=
  let inputString := ToString f in
  let str := trimStart inputString in
  let '(sign, str) :=
    match str with
    | 45%N :: rest => (-1, rest)
    | 43%N :: rest => (1, rest)
    | _ => (1, str)
    end in
  let '(digit, R, str) :=
    match str with
    | 48%N :: 120%N :: rest => (hex_digit, 16, rest)
    | 48%N :: 88%N :: rest => (hex_digit, 16, rest)
    | _ => (decimal_digit, 10, str)
    end in
  match leading_digits digit str with
  | [] => NaN
  | digits => Num (sign * digits_value R digits)
  end.

(** [n || d] for a parsed number [n] and a non-zero integer literal [d]:
    [NaN] and [0] are falsy, every other number is kept. *)
Definition number_or (n : Number) (d : Z) : Z :=
  match n with
  | Num z => if z =? 0 then d else z
  | NaN => d
  end.

(** [Math.ceil(count / limit)] on integers.  Division by zero does not throw
    in JavaScript: it gives [NaN] for [0 / 0] and [Infinity] for a positive
    count.  [Z.div] rounds towards minus infinity whatever the sign of the
    divisor, so [- (- count / limit)] is the ceiling of the quotient. *)
Definition Math_ceil_div (count limit : Z) : ceiling :=
  if limit =? 0 then (if count =? 0 then CeilNaN else CeilInfinity)
  else Ceil (- (- count / limit)).

(** ** Rows, the world and the handler monad *)

(** Modelled from the spec: [models/User.js] and [models/Address.js] are not
    among the sources.  The columns are those of the data model: a generated
    identifier, the fields the handlers write, and the creation time. *)
Record UserRow := mkUser {
  u_id : Z;
  u_name : jstring;
  u_occupation : option jstring;
  u_newsletter : bool;
  u_createdAt : Z
}.

Record AddressRow := mkAddress {
  a_id : Z;
  a_street : jstring;
  a_number : option jstring;
  a_city : jstring;
  a_userId : option Z;
  a_createdAt : Z
}.

(** The objects the handlers build and hand to [create] and [update]. *)
Record UserData := mkUserData {
  name : jstring;
  occupation : option jstring;
  newsletter : bool
}.

Record AddressData := mkAddressData {
  street : jstring;
  number : option jstring;
  city : jstring;
  userId : field
}.

Record Error := mkError { message : jstring }.

Inductive LogArg :=
| Text (s : jstring)
| ErrorObject (e : Error)
| UserObject (u : UserRow)
| AddressObject (a : AddressRow).

Inductive LogEntry :=
| Log (args : list LogArg)
| Err (args : list LogArg).

(** The state a handler runs in.  [faults] is what the backend is going to do
    with the storage calls to come, first call first: [Some e] makes the call
    throw [e] without touching the tables, [None] lets it through; calls past
    the end of the list go through. *)
Record World := mkWorld {
  users : list UserRow;
  addresses : list AddressRow;
  user_seq : Z;
  address_seq : Z;
  now : Z;
  faults : list (option Error);
  console : list LogEntry
}.

Definition set_users (l : list UserRow) (w : World) : World :=
  mkWorld l (addresses w) (user_seq w) (address_seq w) (now w) (faults w) (console w).

Definition set_addresses (l : list AddressRow) (w : World) : World :=
  mkWorld (users w) l (user_seq w) (address_seq w) (now w) (faults w) (console w).

Definition set_faults (l : list (option Error)) (w : World) : World :=
  mkWorld (users w) (addresses w) (user_seq w) (address_seq w) (now w) l (console w).

Definition set_console (l : list LogEntry) (w : World) : World :=
  mkWorld (users w) (addresses w) (user_seq w) (address_seq w) (now w) (faults w) l.

(** A user row enters the table: the next identifier is used up and the clock
    moves on. *)
Definition insert_user (row : UserRow) (w : World) : World :=
  mkWorld (users w ++ [row]) (addresses w) (user_seq w + 1) (address_seq w)
    (now w + 1) (faults w) (console w).

Definition insert_address (row : AddressRow) (w : World) : World :=
  mkWorld (users w) (addresses w ++ [row]) (user_seq w) (address_seq w + 1)
    (now w + 1) (faults w) (console w).

Inductive outcome (A : Type) :=
| Returned (a : A)
| Thrown (e : Error).

Arguments Returned {A} a.
Arguments Thrown {A} e.

(** An [async] computation whose [await]s run one after the other. *)
Definition M (A : Type) : Type := World -> outcome A * World.

Definition ret {A} (a : A) : M A := fun w => (Returned a, w).

Definition bind {A B} (m : M A) (k : A -> M B) : M B :=
  fun w =>
    match m w with
    | (Returned a, w') => k a w'
    | (Thrown e, w') => (Thrown e, w')
    end.

Definition throw {A} (e : Error) : M A := fun w => (Thrown e, w).

(** [try { body } catch (error) { handler }] *)
Definition try_catch {A} (body : M A) (handler : Error -> M A) : M A :=
  fun w =>
    match body w with
    | (Returned a, w') => (Returned a, w')
    | (Thrown e, w') => handler e w'
    end.

Declare Scope js_scope.
Delimit Scope js_scope with js.

Notation "x <- c1 ;; c2" := (bind c1 (fun x => c2))
  (at level 61, c1 at next level, right associativity) : js_scope.
Notation "c1 ;; c2" := (bind c1 (fun _ => c2))
  (at level 61, right associativity) : js_scope.

Definition console_log (args : list LogArg) : M unit :=
  fun w => (Returned tt, set_console (console w ++ [Log args]) w).

Definition console_error (args : list LogArg) : M unit :=
  fun w => (Returned tt, set_console (console w ++ [Err args]) w).

(** The world once the backend has taken note of one storage call. *)
Definition next_call (w : World) : World := set_faults (tl (faults w)) w.

(** One call of the storage backend: the backend fails it when the next fault
    says so, and runs the statement otherwise. *)
Definition storage_call {A} (statement : M A) : M A :=
  fun w =>
    match hd None (faults w) with
    | Some e => (Thrown e, next_call w)
    | None => statement (next_call w)
    end.

(** The first [n] storage calls to come are let through by the backend. *)
Definition calls_succeed (n : nat) (w : World) : Prop :=
  Forall (fun f => f = None) (firstn n (faults w)).

(** The next storage call is going to throw [e]. *)
Definition call_fails (e : Error) (w : World) : Prop :=
  hd None (faults w) = Some e.

(** ** The query interface *)

(** What the relational backend decides: whether a value matches a [LIKE]
    pattern, and which identifier, if any, it reads in a value that a request
    supplies where a key is expected. *)
Class Backend := {
  like : jstring -> jstring -> bool;
  to_key : field -> option Z
}.

(** [where: { id: v }] against a row whose identifier is [k]. *)
Definition key_is `{Backend} (v : field) (k : Z) : bool :=
  match to_key v with
  | Some k' => k' =? k
  | None => false
  end.

(** [where: { userId: v }] against the foreign key [fk] of a row. *)
Definition key_refers `{Backend} (v : field) (fk : option Z) : bool :=
  match fk with
  | Some k => key_is v k
  | None => false
  end.

(** The [where] object of the listing: a pattern for [name], a value for
    [newsletter], either of them optional. *)
Record Criteria := mkCriteria {
  name_like : option jstring;
  newsletter_is : option bool
}.

Definition satisfies `{Backend} (c : Criteria) (u : UserRow) : bool :=
  match name_like c with
  | Some pattern => like pattern (u_name u)
  | None => true
  end
  &&
  match newsletter_is c with
  | Some b => Bool.eqb (u_newsletter u) b
  | None => true
  end.

(** [ORDER BY createdAt DESC], by insertion; rows of equal time keep their
    order. *)
Fixpoint insert_desc {A} (time : A -> Z) (x : A) (l : list A) : list A :=
  match l with
  | [] => [x]
  | y :: rest =>
      if time y <=? time x then x :: l else y :: insert_desc time x rest
  end.

Definition order_desc {A} (time : A -> Z) (l : list A) : list A :=
  fold_right (insert_desc time) [] l.

(** [LIMIT limit OFFSET offset] *)
Definition page_of_rows {A} (limit offset : Z) (l : list A) : list A :=
  firstn (Z.to_nat limit) (skipn (Z.to_nat offset) l).

Definition sql_error : Error := mkError (lit "ER_PARSE_ERROR").

(** The error that the query builder throws for [where: { id: undefined }]:
    WHERE parameter [id] has invalid [undefined] value, the two names between
    double quotes. *)
Definition undefined_where (parameter : jstring) : Error :=
  mkError (lit "WHERE parameter " ++ [34%N] ++ parameter ++ [34%N]
           ++ lit " has invalid " ++ [34%N] ++ lit "undefined" ++ [34%N]
           ++ lit " value").

(** The model objects of Sequelize.  Every method is one storage call. *)
Module User.

(** [User.findAndCountAll({ where, order: [['createdAt', 'DESC']], limit,
    offset, raw: true })]: the number of rows that satisfy [where], and the
    page of them that [limit] and [offset] cut out.  The backend refuses a
    negative [LIMIT] or [OFFSET]. *)
Definition findAndCountAll `{Backend} (c : Criteria) (limit offset : Z)
  : M (list UserRow * Z) :=
  storage_call (fun w =>
    if (limit <? 0) || (offset <? 0) then throw sql_error w
    else
      let found := filter (satisfies c) (users w) in
      (Returned (page_of_rows limit offset (order_desc u_createdAt found),
                 Z.of_nat (List.length found)), w)).

(** [User.create(data)] *)
Definition create (data : UserData) : M UserRow :=
  storage_call (fun w =>
    let row := mkUser (user_seq w) (name data) (occupation data)
                 (newsletter data) (now w) in
    (Returned row, insert_user row w)).

(** The rows of [addresses] that belong to the user [u]. *)
Definition addresses_of (u : UserRow) (l : list AddressRow) : list AddressRow :=
  filter (fun a => match a_userId a with
                   | Some k => k =? u_id u
                   | None => false
                   end) l.

(** [User.findByPk(id, { include: [{ model: Address, as: 'addresses' }] })]:
    the user with its addresses, or [null].  [ordered] says that the include
    asks for [order: [['createdAt', 'DESC']]]. *)
Definition findByPk `{Backend} (id : jstring) (ordered : bool)
  : M (option (UserRow * list AddressRow)) :=
  storage_call (fun w =>
    match find (fun u => key_is (Some id) (u_id u)) (users w) with
    | Some u =>
        let owned := addresses_of u (addresses w) in
        (Returned (Some (u, if ordered then order_desc a_createdAt owned
                            else owned)), w)
    | None => (Returned None, w)
    end).

Definition write (data : UserData) (u : UserRow) : UserRow :=
  mkUser (u_id u) (name data) (occupation data) (newsletter data)
    (u_createdAt u).

(** [User.update(data, { where: { id } })]: the rows that match are
    rewritten; the result is their number.  An [id] that is [undefined] is
    refused: the call throws and no row is touched. *)
Definition update `{Backend} (data : UserData) (id : field) : M Z :=
  storage_call (fun w =>
    match id with
    | None => throw (undefined_where (lit "id")) w
    | Some _ =>
        let hit u := key_is id (u_id u) in
        (Returned (Z.of_nat (List.length (filter hit (users w)))),
         set_users (map (fun u => if hit u then write data u else u) (users w)) w)
    end).

(** [User.destroy({ where: { id } })] *)
Definition destroy `{Backend} (id : field) : M Z :=
  storage_call (fun w =>
    let hit u := key_is id (u_id u) in
    (Returned (Z.of_nat (List.length (filter hit (users w)))),
     set_users (filter (fun u => negb (hit u)) (users w)) w)).

End User.

Module Address.

(** [Address.create(data)] *)
Definition create `{Backend} (data : AddressData) : M AddressRow :=
  storage_call (fun w =>
    let row := mkAddress (address_seq w) (street data) (number data)
                 (city data) (to_key (userId data)) (now w) in
    (Returned row, insert_address row w)).

(** [Address.destroy({ where: { userId } })] *)
Definition destroy_where_userId `{Backend} (userId : field) : M Z :=
  storage_call (fun w =>
    let hit a := key_refers userId (a_userId a) in
    (Returned (Z.of_nat (List.length (filter hit (addresses w)))),
     set_addresses (filter (fun a => negb (hit a)) (addresses w)) w)).

(** [Address.destroy({ where: { id } })].  An [id] that is [undefined] is
    refused: the call throws and no row is touched. *)
Definition destroy_where_id `{Backend} (id : field) : M Z :=
  storage_call (fun w =>
    match id with
    | None => throw (undefined_where (lit "id")) w
    | Some _ =>
        let hit a := key_is id (a_id a) in
        (Returned (Z.of_nat (List.length (filter hit (addresses w)))),
         set_addresses (filter (fun a => negb (hit a)) (addresses w)) w)
    end).

End Address.

(** ** Requests and responses *)

(** [req.query] of the listing. *)
Record ListQuery := mkListQuery {
  query_page : field;
  query_limit : field;
  query_q : field;
  query_newsletter : field
}.

(** [req.body] of the create form. *)
Record UserForm := mkUserForm {
  form_name : field;
  form_occupation : field;
  form_newsletter : field
}.

(** [req.body] of the edit form. *)
Record UpdateForm := mkUpdateForm {
  update_id : field;
  update_name : field;
  update_occupation : field;
  update_newsletter : field
}.

(** [req.body] of the address forms. *)
Record AddressForm := mkAddressForm {
  form_userId : field;
  form_street : field;
  form_number : field;
  form_city : field
}.

Record AddressDeleteForm := mkAddressDeleteForm {
  delete_id : field;
  delete_userId : field
}.

(** The data object each template is rendered with; a key the handler does
    not set is [None]. *)
Record HomeData := mkHome {
  home_users : list UserRow;
  home_currentPage : option Z;
  home_totalPages : option ceiling;
  home_q : field;
  home_newsletter : field;
  home_error : option jstring
}.

Record AddUserData := mkAddUser {
  adduser_error : option jstring;
  adduser_formData : option UserForm
}.

Record UserViewData := mkUserView {
  userview_user : option (UserRow * list AddressRow);
  userview_error : option jstring
}.

Inductive Response :=
| redirect (location : jstring)
| render_home (data : HomeData)
| render_adduser (data : AddUserData)
| render_userview (data : UserViewData)
| render_useredit (user : UserRow * list AddressRow).

(** ** The texts of the source *)

Definition a_acute : jstring := [225%N].
Definition a_tilde : jstring := [227%N].
Definition c_cedilla : jstring := [231%N].
Definition i_acute : jstring := [237%N].

Definition usuario : jstring := lit "usu" ++ a_acute ++ lit "rio".
Definition Usuario : jstring := lit "Usu" ++ a_acute ++ lit "rio".
Definition endereco : jstring := lit "endere" ++ c_cedilla ++ lit "o".
Definition Endereco : jstring := lit "Endere" ++ c_cedilla ++ lit "o".

Definition root : jstring := lit "/".

(** [`/users/edit/${id}`] *)
Definition edit_page (id : jstring) : jstring := lit "/users/edit/" ++ id.

(** ** The listing: GET / *)

Definition listing_page (req : ListQuery) : Z :=
  number_or (parseInt (query_page req)) 1.

Definition listing_limit (req : ListQuery) : Z :=
  number_or (parseInt (query_limit req)) 3.

Definition listing_offset (req : ListQuery) : Z :=
  (listing_page req - 1) * listing_limit req.

(** [if (q) where.name = { [Op.like]: `%${q}%` };
     if (newsletter) where.newsletter = newsletter === 'true';] *)
Definition listing_where (req : ListQuery) : Criteria :=
  mkCriteria
    (match present (query_q req) with
     | Some q => Some (lit "%" ++ q ++ lit "%")
     | None => None
     end)
    (if truthy (query_newsletter req)
     then Some (strict_eq (query_newsletter req) (lit "true"))
     else None).

Definition get_root `{Backend} (req : ListQuery) : M Response :=
  try_catch
    (let page := listing_page req in
     let limit := listing_limit req in
     let offset := listing_offset req in
     let q := query_q req in
     let newsletter := query_newsletter req in
     result <- User.findAndCountAll (listing_where req) limit offset ;;
     let '(users, count) := result in
     ret (render_home
            (mkHome users (Some page) (Some (Math_ceil_div count limit))
               q newsletter None)))%js
    (fun error =>
       console_error
         [Text (lit "Erro ao carregar " ++ usuario ++ lit "s:"); ErrorObject error] ;;
       ret (render_home
              (mkHome [] None None None None
                 (Some (lit "Erro ao carregar " ++ usuario ++ lit "s")))))%js.

(** ** Users *)

(** GET /users/create *)
Definition get_users_create : M Response :=
  ret (render_adduser (mkAddUser None None)).

(** [{ name: name.trim(), occupation: occupation ? occupation.trim() : null,
       newsletter: newsletter === 'on' }] for a name that is a string. *)
Definition user_data (name : jstring) (occupation newsletter : field) : UserData :=
  mkUserData
    (trim name)
    (match present occupation with
     | Some o => Some (trim o)
     | None => None
     end)
    (strict_eq newsletter (lit "on")).

(** [!name || name.trim().length < 2]: [None] when the test holds, the name
    otherwise. *)
Definition valid_name (name : field) : option jstring :=
  match present name with
  | Some n => if jlength (trim n) <? 2 then None else Some n
  | None => None
  end.

(** POST /users/create *)
Definition post_users_create (body : UserForm) : M Response :=
  try_catch
    (let name := form_name body in
     let occupation := form_occupation body in
     let newsletter := form_newsletter body in
     match valid_name name with
     | None =>
         ret (render_adduser
                (mkAddUser
                   (Some (lit "Nome deve ter pelo menos 2 caracteres"))
                   (Some (mkUserForm name occupation newsletter))))
     | Some name =>
         let userData := user_data name occupation newsletter in
         user <- User.create userData ;;
         console_log [Text (Usuario ++ lit " criado:"); UserObject user] ;;
         ret (redirect root)
     end)%js
    (fun error =>
       console_error
         [Text (lit "Erro ao criar " ++ usuario ++ lit ":"); ErrorObject error] ;;
       ret (render_adduser
              (mkAddUser
                 (Some (lit "Erro ao criar " ++ usuario ++ lit ": " ++ message error))
                 (Some body))))%js.

(** GET /users/:id *)
Definition get_users_id `{Backend} (id : jstring) : M Response :=
  try_catch
    (user <- User.findByPk id false ;;
     match user with
     | None =>
         ret (render_userview
                (mkUserView None
                   (Some (Usuario ++ lit " n" ++ a_tilde ++ lit "o encontrado"))))
     | Some u => ret (render_userview (mkUserView (Some u) None))
     end)%js
    (fun error =>
       console_error
         [Text (lit "Erro ao buscar " ++ usuario ++ lit ":"); ErrorObject error] ;;
       ret (render_userview
              (mkUserView None (Some (lit "Erro ao carregar " ++ usuario)))))%js.

(** GET /users/edit/:id *)
Definition get_users_edit_id `{Backend} (id : jstring) : M Response :=
  try_catch
    (user <- User.findByPk id true ;;
     match user with
     | None => ret (redirect root)
     | Some u => ret (render_useredit u)
     end)%js
    (fun error =>
       console_error
         [Text (lit "Erro ao buscar " ++ usuario ++ lit " para edi" ++ c_cedilla
                ++ a_tilde ++ lit "o:");
          ErrorObject error] ;;
       ret (redirect root))%js.

(** POST /users/update *)
Definition post_users_update `{Backend} (body : UpdateForm) : M Response :=
  try_catch
    (let id := update_id body in
     let name := update_name body in
     let occupation := update_occupation body in
     let newsletter := update_newsletter body in
     match valid_name name with
     | None => ret (redirect (edit_page (ToString id)))
     | Some name =>
         let updateData := user_data name occupation newsletter in
         updatedRows <- User.update updateData id ;;
         (if 0 <? updatedRows
          then console_log
                 [Text (Usuario ++ lit " " ++ ToString id
                        ++ lit " atualizado com sucesso")]
          else ret tt) ;;
         ret (redirect root)
     end)%js
    (fun error =>
       console_error
         [Text (lit "Erro ao atualizar " ++ usuario ++ lit ":"); ErrorObject error] ;;
       ret (redirect (edit_page (or_empty (update_id body)))))%js.

(** POST /users/delete/:id *)
Definition post_users_delete_id `{Backend} (id : jstring) : M Response :=
  try_catch
    (Address.destroy_where_userId (Some id) ;;
     deletedRows <- User.destroy (Some id) ;;
     (if 0 <? deletedRows
      then console_log
             [Text (Usuario ++ lit " " ++ id ++ lit " e seus " ++ endereco
                    ++ lit "s foram exclu" ++ i_acute ++ lit "dos")]
      else ret tt) ;;
     ret (redirect root))%js
    (fun error =>
       console_error
         [Text (lit "Erro ao excluir " ++ usuario ++ lit ":"); ErrorObject error] ;;
       ret (redirect root))%js.

(** ** Addresses *)

(** [!street || street.trim().length < 5 || !city || city.trim().length < 2]:
    [None] when the test holds, the street and the city otherwise. *)
Definition valid_address (street city : field) : option (jstring * jstring) :=
  match present street with
  | Some s =>
      if jlength (trim s) <? 5 then None
      else
        match present city with
        | Some c => if jlength (trim c) <? 2 then None else Some (s, c)
        | None => None
        end
  | None => None
  end.

(** [{ street: street.trim(), number: number ? number.trim() : null,
       city: city.trim(), userId }] *)
Definition address_data (street : jstring) (number : field) (city : jstring)
    (userId : field) : AddressData :=
  mkAddressData
    (trim street)
    (match present number with
     | Some n => Some (trim n)
     | None => None
     end)
    (trim city)
    userId.

(** POST /address/create *)
Definition post_address_create `{Backend} (body : AddressForm) : M Response :=
  try_catch
    (let userId := form_userId body in
     let street := form_street body in
     let number := form_number body in
     let city := form_city body in
     match valid_address street city with
     | None => ret (redirect (edit_page (ToString userId)))
     | Some (street, city) =>
         address <- Address.create (address_data street number city userId) ;;
         console_log [Text (Endereco ++ lit " criado:"); AddressObject address] ;;
         ret (redirect (edit_page (ToString userId)))
     end)%js
    (fun error =>
       console_error
         [Text (lit "Erro ao criar " ++ endereco ++ lit ":"); ErrorObject error] ;;
       ret (redirect (edit_page (or_empty (form_userId body)))))%js.

(** POST /address/delete *)
Definition post_address_delete `{Backend} (body : AddressDeleteForm) : M Response :=
  try_catch
    (let id := delete_id body in
     let userId := delete_userId body in
     Address.destroy_where_id id ;;
     console_log
       [Text (Endereco ++ lit " " ++ ToString id ++ lit " exclu" ++ i_acute
              ++ lit "do")] ;;
     ret (redirect (match present userId with
                    | Some u => edit_page u
                    | None => root
                    end)))%js
    (fun error =>
       console_error
         [Text (lit "Erro ao excluir " ++ endereco ++ lit ":"); ErrorObject error] ;;
       ret (redirect root))%js.

(** ** A backend to run the handlers on *)

(** SQL [LIKE] with its two wildcards, compared code unit by code unit. *)
Fixpoint sql_like (pattern value : jstring) {struct pattern} : bool :=
  match pattern with
  | [] => match value with [] => true | _ :: _ => false end
  | c :: pattern' =>
      if (c =? 37)%N then
        (fix skip (v : jstring) : bool :=
           sql_like pattern' v
           || match v with [] => false | _ :: v' => skip v' end) value
      else
        match value with
        | [] => false
        | d :: value' => ((c =? 95) || (c =? d))%N && sql_like pattern' value'
        end
  end.

(** A key is read in a value that is written in decimal digits only. *)
Definition decimal_key (f : field) : option Z :=
  match f with
  | Some (c :: rest) =>
      if forallb (fun d => match decimal_digit d with Some _ => true | None => false end)
           (c :: rest)
      then Some (digits_value 10 (leading_digits decimal_digit (c :: rest)))
      else None
  | _ => None
  end.

Definition plain_backend : Backend := Build_Backend sql_like decimal_key.

Definition empty_world : World := mkWorld [] [] 1 1 0 [] [].

(** ** The words of the specification, and sample requests and worlds *)

(** The occupation as the specification words it: the trimmed text, or null
    when the field is absent. *)
Definition occupation_as_stated (occupation : field) : option jstring :=
  match occupation with
  | Some o => Some (trim o)
  | None => None
  end.

(** The lookup of [id] comes back empty-handed: the backend fails the call,
    or no user row has that identifier. *)
Definition lookup_fails `{Backend} (id : jstring) (w : World) : Prop :=
  (exists e, call_fails e w)
  \/ (hd None (faults w) = None
      /\ forall u, In u (users w) -> key_is (Some id) (u_id u) = false).

(** The redirect as the specification words it: the edit page of the
    submitted userId when one is supplied, the listing root otherwise. *)
Definition delete_redirect_as_stated (userId : field) : jstring :=
  match userId with
  | Some u => edit_page u
  | None => root
  end.

(** A user with identifier 7 who owns [n] addresses, and a user with
    identifier 8 who owns one. *)
Definition owner : UserRow := mkUser 7 (lit "Ana") None false 10.
Definition neighbour : UserRow := mkUser 8 (lit "Rui") (Some (lit "dev")) true 11.

Definition address_of (user k : Z) : AddressRow :=
  mkAddress k (lit "Rua Direita") (Some (lit "12")) (lit "Porto") (Some user)
    (20 + k).

Definition owning (n : nat) : World :=
  mkWorld [owner; neighbour]
    (map (fun k => address_of 7 (Z.of_nat k)) (seq 1 n) ++ [address_of 8 100])
    9 101 200 [] [].

(** [n] users, created one after the other. *)
Definition crowd (n : nat) : World :=
  mkWorld
    (map (fun k => mkUser (Z.of_nat k) (lit "Ana") None (Nat.even k) (Z.of_nat k))
       (seq 1 n))
    [] (Z.of_nat n + 1) 1 (Z.of_nat n + 1) [] [].

Definition second_page_of_three : ListQuery :=
  mkListQuery (Some (lit "2")) (Some (lit "3")) None None.

Definition lost_connection : Error := mkError (lit "lost connection").


Definition bob_form : UserForm := mkUserForm (Some (lit "  Bob  ")) None None.

(** The create form sent with the occupation left blank. *)
Definition blank_occupation_form : UserForm :=
  mkUserForm (Some (lit "Bob")) (Some []) None.

Definition short_name_form : UserForm :=
  mkUserForm (Some (lit "A")) (Some (lit " clerk ")) (Some (lit "on")).

Definition empty_name_update : UpdateForm :=
  mkUpdateForm (Some (lit "5")) (Some []) None None.

Definition rename_update : UpdateForm :=
  mkUpdateForm (Some (lit "2")) (Some (lit " Bia ")) (Some (lit "dev"))
    (Some (lit "on")).

Definition short_street_form : AddressForm :=
  mkAddressForm (Some (lit "7")) (Some (lit "St")) (Some (lit "1")) (Some (lit "Porto")).

Definition good_address_form : AddressForm :=
  mkAddressForm (Some (lit "7")) (Some (lit "  Rua Nova ")) (Some [])
    (Some (lit " Faro ")).

Definition delete_nine : AddressDeleteForm :=
  mkAddressDeleteForm (Some (lit "9")) None.

(** The delete form sent with an empty userId. *)
Definition delete_nine_empty_userId : AddressDeleteForm :=
  mkAddressDeleteForm (Some (lit "9")) (Some []).

(** ** The template helper [range] *)

(** [range: (from, to) => Array.from({ length: to - from + 1 },
    (_, i) => i + from)] on integers: the array has [to - from + 1] entries,
    none when that length is negative, and entry [i] is [i + from].  This is
    the helper for safe integers and a length of [max_array_length] at most;
    a longer array is a [RangeError]. *)
Definition range (from to : Z) : list Z :=
  map (fun i => Z.of_nat i + from) (seq 0 (Z.to_nat (to - from + 1))).

(** ** The application: its routes, and requests served one after the other *)

(** A request, by the route that serves it. *)
Inductive Request :=
| GET_root (query : ListQuery)
| GET_users_create
| POST_users_create (body : UserForm)
| GET_users_id (id : jstring)
| GET_users_edit_id (id : jstring)
| POST_users_update (body : UpdateForm)
| POST_users_delete_id (id : jstring)
| POST_address_create (body : AddressForm)
| POST_address_delete (body : AddressDeleteForm).

Definition handle `{Backend} (request : Request) : M Response :=
  match request with
  | GET_root query => get_root query
  | GET_users_create => get_users_create
  | POST_users_create body => post_users_create body
  | GET_users_id id => get_users_id id
  | GET_users_edit_id id => get_users_edit_id id
  | POST_users_update body => post_users_update body
  | POST_users_delete_id id => post_users_delete_id id
  | POST_address_create body => post_address_create body
  | POST_address_delete body => post_address_delete body
  end.

(** Each request is handled to its end before the next one starts. *)
Fixpoint serve `{Backend} (requests : list Request) (w : World)
  : list (outcome Response) * World :=
  match requests with
  | [] => ([], w)
  | request :: rest =>
      let '(answer, w1) := handle request w in
      let '(answers, w2) := serve rest w1 in
      (answer :: answers, w2)
  end.

(** The routes that write to the table of users, and to that of addresses. *)
Definition writes_users (request : Request) : bool :=
  match request with
  | POST_users_create _ | POST_users_update _ | POST_users_delete_id _ => true
  | _ => false
  end.

Definition writes_addresses (request : Request) : bool :=
  match request with
  | POST_users_delete_id _ | POST_address_create _ | POST_address_delete _ => true
  | _ => false
  end.

(** What the validations let into the tables: a name that is its own trim
    and has two code units or more, an occupation and a number that are their
    own trim, a street of five code units or more and a city of two or more,
    both their own trim. *)
Definition clean (s : jstring) (least : Z) : Prop :=
  trim s = s /\ least <= jlength s.

Definition clean_option (o : option jstring) : Prop :=
  match o with
  | Some s => trim s = s
  | None => True
  end.

Definition valid_user (u : UserRow) : Prop :=
  clean (u_name u) 2 /\ clean_option (u_occupation u).

Definition valid_address_row (a : AddressRow) : Prop :=
  clean (a_street a) 5 /\ clean_option (a_number a) /\ clean (a_city a) 2.

Definition well_formed (w : World) : Prop :=
  Forall valid_user (users w) /\ Forall valid_address_row (addresses w).

(** The users that GET / shows, none when it shows something else. *)
Definition listing_rows `{Backend} (req : ListQuery) (w : World) : list UserRow :=
  match fst (get_root req w) with
  | Returned (render_home data) => home_users data
  | _ => []
  end.

Definition not_subscribed : ListQuery :=
  mkListQuery None None None (Some (lit "yes")).

Definition fourth_page_of_three : ListQuery :=
  mkListQuery (Some (lit "4")) (Some (lit "3")) None None.


(** A string that does not start with white space. *)
Definition starts_clean (s : jstring) : Prop :=
  match s with
  | c :: _ => is_whitespace c = false
  | [] => True
  end.

Definition busy_morning : list Request :=
  [POST_users_create (mkUserForm (Some (lit "  Bob  ")) (Some (lit "   ")) None);
   POST_users_create (mkUserForm (Some (lit " A ")) None None);
   POST_address_create
     (mkAddressForm (Some (lit "1")) (Some (lit " Rua Nova ")) (Some [])
        (Some (lit " Faro ")));
   POST_users_update
     (mkUpdateForm (Some (lit "1")) (Some (lit " Bia ")) (Some (lit " dev "))
        (Some (lit "on")));
   POST_address_create
     (mkAddressForm (Some (lit "1")) (Some (lit " Rua ")) None (Some (lit "Faro")))].

(** Addresses left behind by a user that is gone. *)
Definition orphans : World :=
  mkWorld [neighbour] [address_of 7 1; address_of 8 100] 9 101 200 [] [].

(** The edit form sent with a name and no id. *)
Definition update_without_id : UpdateForm :=
  mkUpdateForm None (Some (lit "Bia")) None None.

(** Rows in descending order of creation. *)
Definition newest_first {A} (time : A -> Z) (x y : A) : Prop := time y <= time x.

(** ** Storage calls, one at a time *)

Lemma calls_succeed_next (n : nat) (w : World) :
  calls_succeed (S n) w ->
  hd None (faults w) = None /\ calls_succeed n (next_call w).
Proof.
  unfold calls_succeed, next_call.
  destruct (faults w) as [| f rest]; simpl.
  - intros _. split; [reflexivity |]. destruct n; constructor.
  - intros Hall. inversion Hall as [| f' rest' Hf Hrest]; subst.
    split; [reflexivity | exact Hrest].
Qed.

Lemma storage_call_succeeds {A} (statement : M A) (n : nat) (w : World) :
  calls_succeed (S n) w ->
  storage_call statement w = statement (next_call w).
Proof.
  intros Hok. apply calls_succeed_next in Hok as [Hhd _].
  unfold storage_call. rewrite Hhd. reflexivity.
Qed.

Lemma storage_call_fails {A} (statement : M A) (e : Error) (w : World) :
  call_fails e w ->
  storage_call statement w = (Thrown e, next_call w).
Proof.
  unfold call_fails, storage_call. intros ->. reflexivity.
Qed.

Lemma filter_none {A} (f : A -> bool) (l : list A) :
  filter f (filter (fun x => negb (f x)) l) = [].
Proof.
  induction l as [| x l IH]; simpl; [reflexivity |].
  destruct (f x) eqn:E; simpl; [| rewrite E]; exact IH.
Qed.

(** ** Deleting a user *)

Lemma destroy_where_userId_succeeds `{Backend} (v : field) (n : nat) (w : World) :
  calls_succeed (S n) w ->
  Address.destroy_where_userId v w
  = (Returned (Z.of_nat (List.length
       (filter (fun a => key_refers v (a_userId a)) (addresses w)))),
     set_addresses
       (filter (fun a => negb (key_refers v (a_userId a))) (addresses w))
       (next_call w)).
Proof.
  intros Hok. unfold Address.destroy_where_userId.
  rewrite (storage_call_succeeds _ n w Hok). reflexivity.
Qed.

Lemma user_destroy_succeeds `{Backend} (v : field) (n : nat) (w : World) :
  calls_succeed (S n) w ->
  User.destroy v w
  = (Returned (Z.of_nat (List.length
       (filter (fun u => key_is v (u_id u)) (users w)))),
     set_users (filter (fun u => negb (key_is v (u_id u))) (users w))
       (next_call w)).
Proof.
  intros Hok. unfold User.destroy.
  rewrite (storage_call_succeeds _ n w Hok). reflexivity.
Qed.

(** The handler answers with a redirect to the listing root whatever the
    backend does. *)
Lemma delete_user_always_redirects `{Backend} (id : jstring) (w : World) :
  fst (post_users_delete_id id w) = Returned (redirect root).
Proof.
  unfold post_users_delete_id, try_catch, bind, Address.destroy_where_userId,
    User.destroy, storage_call, console_log, console_error, ret.
  destruct (hd None (faults w)); simpl; [reflexivity |].
  destruct (hd None (tl (faults w))); simpl; [reflexivity |].
  match goal with |- context [if ?c then _ else _] => destruct c end;
    reflexivity.
Qed.

(** C1.  POST /users/delete/:id answers with a redirect to the listing root
    in every world, whatever the backend does.  When the backend lets the two
    storage calls through, the handler's effect on the tables is that of
    [Address.destroy({ where: { userId: id } })] followed, in the world this
    leaves, by [User.destroy({ where: { id } })]: the address rows that refer
    to [id] are gone, however many there were, then the user rows with that
    identifier are gone, and no address row refers to [id] any more. *)
Theorem delete_user_cascade `{Backend} (id : jstring) (w : World) :
  fst (post_users_delete_id id w) = Returned (redirect root)
  /\
  (calls_succeed 2 w ->
   exists n w1 m w2 w',
     Address.destroy_where_userId (Some id) w = (Returned n, w1)
     /\ User.destroy (Some id) w1 = (Returned m, w2)
     /\ post_users_delete_id id w = (Returned (redirect root), w')
     /\ n = Z.of_nat (List.length
              (filter (fun a => key_refers (Some id) (a_userId a)) (addresses w)))
     /\ users w1 = users w
     /\ addresses w' = addresses w2
     /\ users w' = users w2
     /\ addresses w2
        = filter (fun a => negb (key_refers (Some id) (a_userId a))) (addresses w)
     /\ users w2 = filter (fun u => negb (key_is (Some id) (u_id u))) (users w)
     /\ filter (fun a => key_refers (Some id) (a_userId a)) (addresses w') = []).
Proof.
  split; [apply delete_user_always_redirects |].
  intros Hok.
  pose proof (calls_succeed_next _ _ Hok) as [_ Hok1].
  pose proof (destroy_where_userId_succeeds (Some id) 1 w Hok) as Hfirst.
  set (n := Z.of_nat _) in Hfirst.
  set (w1 := set_addresses _ _) in Hfirst.
  assert (Hok2 : calls_succeed 1 w1) by exact Hok1.
  pose proof (user_destroy_succeeds (Some id) 0 w1 Hok2) as Hsecond.
  set (m := Z.of_nat _) in Hsecond.
  set (w2 := set_users _ _) in Hsecond.
  assert (Hrun : exists w', post_users_delete_id id w = (Returned (redirect root), w')
                            /\ addresses w' = addresses w2 /\ users w' = users w2).
  { unfold post_users_delete_id, try_catch, bind.
    rewrite Hfirst, Hsecond.
    destruct (0 <? m); eexists; (split; [reflexivity |]); split; reflexivity. }
  destruct Hrun as (w' & Hrun & Ha & Hu).
  exists n, w1, m, w2, w'.
  repeat split; try assumption; try reflexivity.
  rewrite Ha. apply filter_none.
Qed.

(** ** The listing *)

Lemma findAndCountAll_succeeds `{Backend} (c : Criteria) (limit offset : Z)
    (n : nat) (w : World) :
  calls_succeed (S n) w -> 0 <= limit -> 0 <= offset ->
  User.findAndCountAll c limit offset w
  = (Returned
       (page_of_rows limit offset
          (order_desc u_createdAt (filter (satisfies c) (users w))),
        Z.of_nat (List.length (filter (satisfies c) (users w)))),
     next_call w).
Proof.
  intros Hok Hlimit Hoffset. unfold User.findAndCountAll.
  rewrite (storage_call_succeeds _ n w Hok).
  replace (limit <? 0) with false by (symmetry; apply Z.ltb_ge; lia).
  replace (offset <? 0) with false by (symmetry; apply Z.ltb_ge; lia).
  reflexivity.
Qed.

Lemma page_of_rows_length {A} (limit offset : Z) (l : list A) :
  0 <= limit -> Z.of_nat (List.length (page_of_rows limit offset l)) <= limit.
Proof.
  intros Hlimit. unfold page_of_rows.
  pose proof (firstn_le_length (Z.to_nat limit) (skipn (Z.to_nat offset) l)).
  lia.
Qed.

(** [- (- count / limit)] is the least integer whose product with [limit]
    reaches [count]. *)
Lemma ceiling_bounds (count limit : Z) :
  0 < limit ->
  (- (- count / limit) - 1) * limit < count <= - (- count / limit) * limit.
Proof.
  intros Hlimit.
  pose proof (Z.div_mod (- count) limit ltac:(lia)) as Hdiv.
  pose proof (Z.mod_pos_bound (- count) limit Hlimit) as Hmod.
  nia.
Qed.

Lemma number_or_parsed (z d : Z) : z <> 0 -> number_or (Num z) d = z.
Proof.
  intros Hz. unfold number_or.
  replace (z =? 0) with false by (symmetry; apply Z.eqb_neq; exact Hz).
  reflexivity.
Qed.

Lemma insert_desc_permutation {A} (time : A -> Z) (x : A) (l : list A) :
  Permutation (x :: l) (insert_desc time x l).
Proof.
  induction l as [| y l IH]; simpl; [apply Permutation_refl |].
  destruct (time y <=? time x); [apply Permutation_refl |].
  apply perm_trans with (y :: x :: l); [apply perm_swap |].
  apply perm_skip. exact IH.
Qed.

Lemma order_desc_permutation {A} (time : A -> Z) (l : list A) :
  Permutation (order_desc time l) l.
Proof.
  unfold order_desc. induction l as [| x l IH]; simpl; [apply perm_nil |].
  apply Permutation_sym.
  apply perm_trans with (x :: fold_right (insert_desc time) [] l).
  - apply perm_skip, Permutation_sym. exact IH.
  - apply insert_desc_permutation.
Qed.

Lemma insert_desc_sorted {A} (time : A -> Z) (x : A) (l : list A) :
  StronglySorted (newest_first time) l ->
  StronglySorted (newest_first time) (insert_desc time x l).
Proof.
  induction l as [| y l IH]; intros Hsorted; simpl.
  - constructor; constructor.
  - apply StronglySorted_inv in Hsorted as [Hrest Hy].
    destruct (time y <=? time x) eqn:E.
    + apply Z.leb_le in E. constructor.
      * constructor; assumption.
      * constructor; [exact E |].
        revert Hy. apply Forall_impl. unfold newest_first. intros z Hz. lia.
    + apply Z.leb_gt in E. constructor; [apply IH; exact Hrest |].
      apply (Permutation_Forall (insert_desc_permutation time x l)).
      constructor; [unfold newest_first; lia | exact Hy].
Qed.

Lemma order_desc_sorted {A} (time : A -> Z) (l : list A) :
  StronglySorted (newest_first time) (order_desc time l).
Proof.
  unfold order_desc. induction l as [| x l IH]; simpl; [constructor |].
  apply insert_desc_sorted. exact IH.
Qed.

(** C2.  Take a listing request whose page and limit parameters parse to
    integers [page] and [limit] of at least 1, all the numbers involved
    (page, limit, the offset [(page - 1) * limit] and the number of matching
    rows) being safe integers, and a backend that lets the query through.
    The answer is the home view with [page] as the current page; the rows
    shown are those that [limit] cuts out, after skipping
    [(page - 1) * limit], of the matching rows put in some descending order
    of creation; there are at most [limit] of them; and [totalPages] is the
    ceiling of [count / limit]: the integer [t] with
    [(t - 1) * limit < count <= t * limit]. *)
Theorem listing_pagination `{Backend} (req : ListQuery) (w : World)
    (page limit : Z)
    (Hpage : parseInt (query_page req) = Num page)
    (Hlimit : parseInt (query_limit req) = Num limit)
    (Hpage1 : 1 <= page <= max_safe_integer)
    (Hlimit1 : 1 <= limit <= max_safe_integer)
    (Hoffset : (page - 1) * limit <= max_safe_integer)
    (Hcount : Z.of_nat (List.length
                (filter (satisfies (listing_where req)) (users w)))
              <= max_safe_integer)
    (Hok : calls_succeed 1 w) :
  let matching := filter (satisfies (listing_where req)) (users w) in
  let count := Z.of_nat (List.length matching) in
  exists rows sorted totalPages w',
    get_root req w
    = (Returned (render_home
         (mkHome rows (Some page) (Some (Ceil totalPages))
            (query_q req) (query_newsletter req) None)), w')
    /\ Permutation sorted matching
    /\ StronglySorted (newest_first u_createdAt) sorted
    /\ rows = firstn (Z.to_nat limit)
                (skipn (Z.to_nat ((page - 1) * limit)) sorted)
    /\ Z.of_nat (List.length rows) <= limit
    /\ (totalPages - 1) * limit < count <= totalPages * limit
    /\ users w' = users w /\ addresses w' = addresses w.
Proof.
  intros matching count.
  assert (Hp : listing_page req = page)
    by (unfold listing_page; rewrite Hpage; apply number_or_parsed; lia).
  assert (Hl : listing_limit req = limit)
    by (unfold listing_limit; rewrite Hlimit; apply number_or_parsed; lia).
  assert (Ho : listing_offset req = (page - 1) * limit)
    by (unfold listing_offset; rewrite Hp, Hl; reflexivity).
  exists (page_of_rows limit ((page - 1) * limit)
            (order_desc u_createdAt matching)),
    (order_desc u_createdAt matching), (- (- count / limit)), (next_call w).
  split.
  - unfold get_root, try_catch, bind. rewrite Hp, Hl, Ho.
    rewrite (findAndCountAll_succeeds _ _ _ 0 w Hok) by nia.
    unfold ret, Math_ceil_div. fold matching count.
    replace (limit =? 0) with false by (symmetry; apply Z.eqb_neq; lia).
    reflexivity.
  - split; [apply order_desc_permutation |].
    split; [apply order_desc_sorted |].
    repeat split; try reflexivity.
    + apply page_of_rows_length. lia.
    + apply ceiling_bounds. lia.
    + apply ceiling_bounds. lia.
Qed.

Lemma findAndCountAll_reads_only `{Backend} (c : Criteria) (limit offset : Z)
    (w : World) :
  users (snd (User.findAndCountAll c limit offset w)) = users w
  /\ addresses (snd (User.findAndCountAll c limit offset w)) = addresses w
  /\ console (snd (User.findAndCountAll c limit offset w)) = console w.
Proof.
  unfold User.findAndCountAll, storage_call.
  destruct (hd None (faults w)); [repeat split |].
  destruct ((limit <? 0) || (offset <? 0)); repeat split.
Qed.

(** C9.  When the query of the listing throws, for whatever reason, GET /
    does not throw: it returns the home view with no users and the error
    text, having written the failure to the console and left the tables as
    they were. *)
Theorem listing_storage_failure `{Backend} (req : ListQuery) (w w1 : World)
    (e : Error)
    (Hfail : User.findAndCountAll (listing_where req) (listing_limit req)
               (listing_offset req) w = (Thrown e, w1)) :
  get_root req w
  = (Returned (render_home
       (mkHome [] None None None None
          (Some (lit "Erro ao carregar " ++ usuario ++ lit "s")))),
     set_console
       (console w ++
        [Err [Text (lit "Erro ao carregar " ++ usuario ++ lit "s:");
              ErrorObject e]]) w1)
  /\ users w1 = users w
  /\ addresses w1 = addresses w.
Proof.
  pose proof (findAndCountAll_reads_only (listing_where req) (listing_limit req)
                (listing_offset req) w) as (Hu & Ha & Hc).
  rewrite Hfail in Hu, Ha, Hc. simpl in Hu, Ha, Hc.
  repeat split; try assumption.
  unfold get_root, try_catch, bind. rewrite Hfail.
  unfold console_error, ret. rewrite Hc. reflexivity.
Qed.

(** GET / returns a response in every world. *)
Lemma listing_never_throws `{Backend} (req : ListQuery) (w : World) :
  exists response w', get_root req w = (Returned response, w').
Proof.
  unfold get_root, try_catch, bind.
  destruct (User.findAndCountAll _ _ _ w) as [[[rows count] | e] w1];
    eexists; eexists; reflexivity.
Qed.



(** ** Creating and updating a user *)

Lemma valid_name_accepts (n : jstring) :
  2 <= jlength (trim n) -> valid_name (Some n) = Some n.
Proof.
  intros Hlen. unfold valid_name.
  destruct n as [| c rest]; [change (2 <= 0) in Hlen; lia |].
  simpl. replace (jlength (trim (c :: rest)) <? 2) with false
    by (symmetry; apply Z.ltb_ge; exact Hlen).
  reflexivity.
Qed.

Lemma valid_name_rejects (name : field) :
  name = None \/ (exists n, name = Some n /\ jlength (trim n) < 2) ->
  valid_name name = None.
Proof.
  intros [-> | (n & -> & Hlen)]; [reflexivity |].
  unfold valid_name. destruct (present (Some n)) as [n' |] eqn:E; [| reflexivity].
  assert (n' = n) as -> by (destruct n; simpl in E; congruence).
  replace (jlength (trim n) <? 2) with true
    by (symmetry; apply Z.ltb_lt; exact Hlen).
  reflexivity.
Qed.

Lemma user_create_succeeds (data : UserData) (n : nat) (w : World) :
  calls_succeed (S n) w ->
  User.create data w
  = (Returned (mkUser (user_seq w) (name data) (occupation data)
                 (newsletter data) (now w)),
     insert_user (mkUser (user_seq w) (name data) (occupation data)
                    (newsletter data) (now w)) (next_call w)).
Proof.
  intros Hok. unfold User.create.
  rewrite (storage_call_succeeds _ n w Hok). reflexivity.
Qed.

Lemma strict_eq_iff (f : field) (text : jstring) :
  strict_eq f text = true <-> f = Some text.
Proof.
  unfold strict_eq. destruct f as [s |].
  - destruct (list_eq_dec N.eq_dec s text) as [-> | Hne]; split;
      congruence.
  - split; discriminate.
Qed.

(** C3, as amended.  A create request whose name trims to at least two
    characters, served by a backend that lets the insertion through, adds
    exactly one user row and is answered with a redirect to the listing
    root.  The row holds the trimmed name; the trimmed occupation, or null
    when the occupation is absent or the empty string; and a newsletter flag
    that is true exactly when the submitted value is the text [on]. *)
Theorem create_user_persists (body : UserForm) (n : jstring) (w : World)
    (Hname : form_name body = Some n) (Hlen : 2 <= jlength (trim n))
    (Hok : calls_succeed 1 w) :
  exists row w',
    post_users_create body w = (Returned (redirect root), w')
    /\ users w' = users w ++ [row]
    /\ addresses w' = addresses w
    /\ u_name row = trim n
    /\ u_occupation row
       = match form_occupation body with
         | Some (c :: o) => Some (trim (c :: o))
         | Some [] => None
         | None => None
         end
    /\ (u_newsletter row = true <-> form_newsletter body = Some (lit "on")).
Proof.
  set (data := user_data n (form_occupation body) (form_newsletter body)).
  exists (mkUser (user_seq w) (name data) (occupation data) (newsletter data)
            (now w)).
  eexists. split.
  - unfold post_users_create, try_catch, bind.
    rewrite Hname, (valid_name_accepts n Hlen).
    fold data. rewrite (user_create_succeeds data 0 w Hok).
    unfold console_log, ret. reflexivity.
  - simpl. repeat split.
    + destruct (form_occupation body) as [[| c o] |]; reflexivity.
    + apply strict_eq_iff.
    + apply strict_eq_iff.
Qed.

(** C4.  A create request whose name is absent, or trims to fewer than two
    characters, changes nothing in the world (no storage call is made) and is
    answered with the create form, the validation message, and the three
    submitted values as they were sent. *)
Theorem create_user_rejects_short_name (body : UserForm) (w : World)
    (Hbad : form_name body = None
            \/ exists n, form_name body = Some n /\ jlength (trim n) < 2) :
  post_users_create body w
  = (Returned (render_adduser
       (mkAddUser (Some (lit "Nome deve ter pelo menos 2 caracteres"))
          (Some body))), w).
Proof.
  unfold post_users_create, try_catch, bind.
  rewrite (valid_name_rejects _ Hbad).
  destruct body; reflexivity.
Qed.

Lemma user_update_succeeds `{Backend} (data : UserData) (id : jstring) (n : nat)
    (w : World) :
  calls_succeed (S n) w ->
  User.update data (Some id) w
  = (Returned (Z.of_nat (List.length
       (filter (fun u => key_is (Some id) (u_id u)) (users w)))),
     set_users
       (map (fun u => if key_is (Some id) (u_id u) then User.write data u else u)
          (users w))
       (next_call w)).
Proof.
  intros Hok. unfold User.update.
  rewrite (storage_call_succeeds _ n w Hok). reflexivity.
Qed.

(** Without an id the update is refused, whatever the rows. *)
Lemma user_update_refused `{Backend} (data : UserData) (n : nat) (w : World) :
  calls_succeed (S n) w ->
  User.update data None w = (Thrown (undefined_where (lit "id")), next_call w).
Proof.
  intros Hok. unfold User.update.
  rewrite (storage_call_succeeds _ n w Hok). reflexivity.
Qed.

Lemma map_unless_hit {A} (hit : A -> bool) (f : A -> A) (l : list A) :
  (forall x, In x l -> hit x = false) ->
  map (fun x => if hit x then f x else x) l = l.
Proof.
  induction l as [| x l IH]; intros Hnone; simpl; [reflexivity |].
  rewrite (Hnone x (or_introl eq_refl)), IH; [reflexivity |].
  intros y Hy. apply Hnone. right. exact Hy.
Qed.

(** C5, as amended.  POST /users/update with a name that is missing or trims
    to fewer than two characters changes nothing in the world and is answered
    with a redirect to [/users/edit/<id>], with no message.  With any other
    name and a submitted id, and a backend that lets the update through, the
    rows whose identifier matches the submitted id are rewritten with the new
    values and every other row is left as it was; the answer is a redirect to
    the listing root, also when no row matched and the table is unchanged.
    With any other name and no id, the update is refused: no row is changed,
    the refusal is written to the console and the answer is a redirect to
    [/users/edit/]. *)
Theorem update_user_behaviour `{Backend} (body : UpdateForm) (w : World) :
  (update_name body = None
   \/ (exists n, update_name body = Some n /\ jlength (trim n) < 2) ->
   post_users_update body w
   = (Returned (redirect (lit "/users/edit/" ++ ToString (update_id body))), w))
  /\
  (forall n id,
     update_name body = Some n -> 2 <= jlength (trim n) ->
     update_id body = Some id ->
     calls_succeed 1 w ->
     exists w',
       post_users_update body w = (Returned (redirect root), w')
       /\ users w'
          = map (fun u =>
                   if key_is (Some id) (u_id u)
                   then User.write
                          (user_data n (update_occupation body)
                             (update_newsletter body)) u
                   else u)
              (users w)
       /\ addresses w' = addresses w
       /\ ((forall u, In u (users w) -> key_is (Some id) (u_id u) = false) ->
           users w' = users w))
  /\
  (forall n,
     update_name body = Some n -> 2 <= jlength (trim n) ->
     update_id body = None ->
     calls_succeed 1 w ->
     post_users_update body w
     = (Returned (redirect (lit "/users/edit/")),
        set_console
          (console w ++
           [Err [Text (lit "Erro ao atualizar " ++ usuario ++ lit ":");
                 ErrorObject (undefined_where (lit "id"))]])
          (next_call w))).
Proof.
  split; [| split].
  - intros Hbad. unfold post_users_update, try_catch, bind.
    rewrite (valid_name_rejects _ Hbad). reflexivity.
  - intros n id Hname Hlen Hid Hok.
    set (data := user_data n (update_occupation body) (update_newsletter body)).
    assert (Hrun : exists w',
      post_users_update body w = (Returned (redirect root), w')
      /\ users w' = map (fun u => if key_is (Some id) (u_id u)
                                  then User.write data u else u) (users w)
      /\ addresses w' = addresses w).
    { unfold post_users_update, try_catch, bind.
      rewrite Hname, Hid, (valid_name_accepts n Hlen). fold data.
      rewrite (user_update_succeeds data id 0 w Hok).
      destruct (0 <? _); eexists; (split; [reflexivity |]); split; reflexivity. }
    destruct Hrun as (w' & Hrun & Hu & Ha).
    exists w'. repeat split; try assumption.
    intros Hnone. rewrite Hu. apply map_unless_hit. exact Hnone.
  - intros n Hname Hlen Hid Hok.
    unfold post_users_update, try_catch, bind.
    rewrite Hname, Hid, (valid_name_accepts n Hlen).
    rewrite (user_update_refused _ 0 w Hok). reflexivity.
Qed.

(** ** Looking a user up *)

Lemma find_none {A} (f : A -> bool) (l : list A) :
  (forall x, In x l -> f x = false) -> find f l = None.
Proof.
  induction l as [| x l IH]; intros Hnone; simpl; [reflexivity |].
  rewrite (Hnone x (or_introl eq_refl)). apply IH.
  intros y Hy. apply Hnone. right. exact Hy.
Qed.

Lemma findByPk_fails `{Backend} (id : jstring) (ordered : bool) (w : World) :
  lookup_fails id w ->
  (exists e, call_fails e w
             /\ User.findByPk id ordered w = (Thrown e, next_call w))
  \/ User.findByPk id ordered w = (Returned None, next_call w).
Proof.
  intros [[e He] | [Hhd Hnone]].
  - left. exists e. split; [exact He |].
    unfold User.findByPk. apply storage_call_fails. exact He.
  - right. unfold User.findByPk, storage_call. rewrite Hhd.
    change (users (next_call w)) with (users w).
    rewrite (find_none _ _ Hnone). reflexivity.
Qed.

(** C6.  When the lookup of [id] fails (no user has that identifier, or the
    backend fails the call), GET /users/:id renders the detail view with no
    user and an error message (one text when the backend failed, another
    when no user was found), while GET /users/edit/:id redirects to the
    listing root.  Neither changes the tables. *)
Theorem lookup_failure_fallbacks `{Backend} (id : jstring) (w : World)
    (Hmiss : lookup_fails id w) :
  (exists text w',
     get_users_id id w
     = (Returned (render_userview (mkUserView None (Some text))), w')
     /\ ((exists e, call_fails e w) ->
         text = lit "Erro ao carregar " ++ usuario)
     /\ (hd None (faults w) = None ->
         text = Usuario ++ lit " n" ++ a_tilde ++ lit "o encontrado")
     /\ users w' = users w /\ addresses w' = addresses w)
  /\
  (exists w',
     get_users_edit_id id w = (Returned (redirect root), w')
     /\ users w' = users w /\ addresses w' = addresses w).
Proof.
  split.
  - destruct (findByPk_fails id false w Hmiss) as [(e & He & Hrun) | Hrun].
    + eexists; eexists. unfold get_users_id, try_catch, bind. rewrite Hrun.
      unfold console_error, ret. simpl.
      split; [reflexivity |]. split; [reflexivity |].
      split; [| split; reflexivity].
      unfold call_fails in He. congruence.
    + destruct Hmiss as [[e He] | [Hhd _]].
      * unfold User.findByPk in Hrun.
        rewrite (storage_call_fails _ e w He) in Hrun. discriminate Hrun.
      * eexists; eexists. unfold get_users_id, try_catch, bind. rewrite Hrun.
        unfold ret.
        split; [reflexivity |]. split; [| split; [reflexivity |]].
        -- intros [e He]. unfold call_fails in He. congruence.
        -- split; reflexivity.
  - destruct (findByPk_fails id true w Hmiss) as [(e & _ & Hrun) | Hrun].
    + eexists. unfold get_users_edit_id, try_catch, bind. rewrite Hrun.
      unfold console_error, ret. simpl.
      split; [reflexivity |]. split; reflexivity.
    + eexists. unfold get_users_edit_id, try_catch, bind. rewrite Hrun.
      unfold ret.
      split; [reflexivity |]. split; reflexivity.
Qed.

(** ** Addresses *)

Lemma valid_address_accepts (s c : jstring) :
  5 <= jlength (trim s) -> 2 <= jlength (trim c) ->
  valid_address (Some s) (Some c) = Some (s, c).
Proof.
  intros Hs Hc. unfold valid_address.
  destruct s as [| s0 s']; [change (5 <= 0) in Hs; lia |].
  destruct c as [| c0 c']; [change (2 <= 0) in Hc; lia |].
  simpl.
  replace (jlength (trim (s0 :: s')) <? 5) with false
    by (symmetry; apply Z.ltb_ge; exact Hs).
  replace (jlength (trim (c0 :: c')) <? 2) with false
    by (symmetry; apply Z.ltb_ge; exact Hc).
  reflexivity.
Qed.

Lemma present_some (f : field) (s : jstring) : present f = Some s -> f = Some s.
Proof.
  destruct f as [[| c rest] |]; simpl; congruence.
Qed.

Lemma valid_address_rejects (street city : field) :
  street = None \/ (exists s, street = Some s /\ jlength (trim s) < 5)
  \/ city = None \/ (exists c, city = Some c /\ jlength (trim c) < 2) ->
  valid_address street city = None.
Proof.
  intros Hbad. unfold valid_address.
  destruct (present street) as [s |] eqn:Es; [| reflexivity].
  apply present_some in Es.
  destruct (jlength (trim s) <? 5) eqn:Els; [reflexivity |].
  apply Z.ltb_ge in Els.
  destruct (present city) as [c |] eqn:Ec; [| reflexivity].
  apply present_some in Ec.
  destruct (jlength (trim c) <? 2) eqn:Elc; [reflexivity |].
  apply Z.ltb_ge in Elc. exfalso.
  destruct Hbad as [Hs | [(s' & Hs & Hlen) | [Hc | (c' & Hc & Hlen)]]];
    try congruence.
  - assert (s' = s) by congruence. subst. lia.
  - assert (c' = c) by congruence. subst. lia.
Qed.

Lemma address_create_succeeds `{Backend} (data : AddressData) (n : nat)
    (w : World) :
  calls_succeed (S n) w ->
  Address.create data w
  = (Returned (mkAddress (address_seq w) (street data) (number data)
                 (city data) (to_key (userId data)) (now w)),
     insert_address
       (mkAddress (address_seq w) (street data) (number data) (city data)
          (to_key (userId data)) (now w)) (next_call w)).
Proof.
  intros Hok. unfold Address.create.
  rewrite (storage_call_succeeds _ n w Hok). reflexivity.
Qed.

(** C7.  POST /address/create with a street that is absent or trims to fewer
    than five characters, or a city that is absent or trims to fewer than two,
    changes nothing in the world and is answered with a redirect to
    [/users/edit/<userId>], with no message.  Otherwise, with a backend that
    lets the insertion through, the handler hands [Address.create] the
    trimmed street, the trimmed number (null when the number is absent or
    empty), the trimmed city and the submitted userId, exactly one address
    row is added, holding these values, and the answer is the same
    redirect. *)
Theorem create_address_behaviour `{Backend} (body : AddressForm) (w : World) :
  (form_street body = None
   \/ (exists s, form_street body = Some s /\ jlength (trim s) < 5)
   \/ form_city body = None
   \/ (exists c, form_city body = Some c /\ jlength (trim c) < 2) ->
   post_address_create body w
   = (Returned (redirect (lit "/users/edit/" ++ ToString (form_userId body))), w))
  /\
  (forall s c,
     form_street body = Some s -> 5 <= jlength (trim s) ->
     form_city body = Some c -> 2 <= jlength (trim c) ->
     calls_succeed 1 w ->
     exists data row w',
       post_address_create body w
       = (Returned (redirect (lit "/users/edit/" ++ ToString (form_userId body))),
          w')
       /\ Address.create data w = (Returned row, insert_address row (next_call w))
       /\ street data = trim s
       /\ number data = match form_number body with
                        | Some (d :: n) => Some (trim (d :: n))
                        | Some [] => None
                        | None => None
                        end
       /\ city data = trim c
       /\ userId data = form_userId body
       /\ addresses w' = addresses w ++ [row]
       /\ users w' = users w
       /\ a_street row = trim s
       /\ a_number row = number data
       /\ a_city row = trim c
       /\ a_userId row = to_key (form_userId body)).
Proof.
  split.
  - intros Hbad. unfold post_address_create, try_catch, bind.
    rewrite (valid_address_rejects _ _ Hbad). reflexivity.
  - intros s c Hs Hls Hc Hlc Hok.
    set (data := address_data s (form_number body) c (form_userId body)).
    exists data. eexists. eexists.
    split; [| split; [apply (address_create_succeeds data 0 w Hok) |]].
    + unfold post_address_create, try_catch, bind.
      rewrite Hs, Hc, (valid_address_accepts s c Hls Hlc). fold data.
      rewrite (address_create_succeeds data 0 w Hok).
      unfold console_log, ret. reflexivity.
    + simpl. repeat split.
      destruct (form_number body) as [[| d n] |]; reflexivity.
Qed.

Lemma address_destroy_succeeds `{Backend} (id : jstring) (n : nat) (w : World) :
  calls_succeed (S n) w ->
  Address.destroy_where_id (Some id) w
  = (Returned (Z.of_nat (List.length
       (filter (fun a => key_is (Some id) (a_id a)) (addresses w)))),
     set_addresses
       (filter (fun a => negb (key_is (Some id) (a_id a))) (addresses w))
       (next_call w)).
Proof.
  intros Hok. unfold Address.destroy_where_id.
  rewrite (storage_call_succeeds _ n w Hok). reflexivity.
Qed.

(** Without an id the deletion is refused, whatever the rows. *)
Lemma address_destroy_refused `{Backend} (n : nat) (w : World) :
  calls_succeed (S n) w ->
  Address.destroy_where_id None w
  = (Thrown (undefined_where (lit "id")), next_call w).
Proof.
  intros Hok. unfold Address.destroy_where_id.
  rewrite (storage_call_succeeds _ n w Hok). reflexivity.
Qed.

(** C8, as amended.  POST /address/delete with a submitted id, and a backend
    that lets the deletion through, removes the address rows whose
    identifier matches the submitted id, whatever their owner and whatever
    userId was submitted, and nothing else; the answer is a redirect to
    [/users/edit/<userId>] when a non-empty userId was submitted, and to the
    listing root when userId is absent or the empty string.  With no id the
    deletion is refused: no row is deleted, the refusal is written to the
    console, and the answer is a redirect to the listing root whatever
    userId was submitted. *)
Theorem delete_address_behaviour `{Backend} (body : AddressDeleteForm)
    (w : World) (Hok : calls_succeed 1 w) :
  (forall id,
     delete_id body = Some id ->
     exists w',
       post_address_delete body w
       = (Returned (redirect
            (match delete_userId body with
             | Some (c :: u) => lit "/users/edit/" ++ c :: u
             | Some [] => root
             | None => root
             end)), w')
       /\ addresses w'
          = filter (fun a => negb (key_is (Some id) (a_id a))) (addresses w)
       /\ users w' = users w
       /\ (forall userId',
             addresses
               (snd (post_address_delete
                       (mkAddressDeleteForm (Some id) userId') w))
             = addresses w'))
  /\
  (delete_id body = None ->
   post_address_delete body w
   = (Returned (redirect root),
      set_console
        (console w ++
         [Err [Text (lit "Erro ao excluir " ++ endereco ++ lit ":");
               ErrorObject (undefined_where (lit "id"))]])
        (next_call w))).
Proof.
  split.
  - intros id Hid. eexists. split; [| split; [| split]].
    + unfold post_address_delete, try_catch, bind. rewrite Hid.
      rewrite (address_destroy_succeeds id 0 w Hok).
      unfold console_log, ret.
      destruct (delete_userId body) as [[| c u] |]; reflexivity.
    + reflexivity.
    + reflexivity.
    + intros userId'. unfold post_address_delete, try_catch, bind. simpl.
      rewrite (address_destroy_succeeds id 0 w Hok).
      reflexivity.
  - intros Hid. unfold post_address_delete, try_catch, bind. rewrite Hid.
    rewrite (address_destroy_refused 0 w Hok). reflexivity.
Qed.

(** ** The handlers at work *)

Example parseInt_2 : parseInt (Some (lit " 12px")) = Num 12.
Proof. reflexivity. Qed.

Example parseInt_hex : parseInt (Some (lit "-0x1f")) = Num (-31).
Proof. reflexivity. Qed.

Example parseInt_undefined : parseInt None = NaN.
Proof. reflexivity. Qed.

Example trim_Bob : trim (lit "  Bob  ") = lit "Bob".
Proof. reflexivity. Qed.

Example parseInt_zero : parseInt (Some (lit "0")) = Num 0.
Proof. reflexivity. Qed.

Example parseInt_text : parseInt (Some (lit "abc")) = NaN.
Proof. reflexivity. Qed.

Lemma delete_user_cascade_witness :
  calls_succeed 2 (owning 3)
  /\ List.length (filter (fun a => @key_refers plain_backend (Some (lit "7")) (a_userId a))
                    (addresses (owning 3))) = 3%nat
  /\ exists w',
       @post_users_delete_id plain_backend (lit "7") (owning 3)
       = (Returned (redirect root), w')
       /\ filter (fun a => @key_refers plain_backend (Some (lit "7")) (a_userId a))
            (addresses w') = []
       /\ addresses w' = [address_of 8 100]
       /\ users w' = [neighbour].
Proof.
  assert (Hok : calls_succeed 2 (owning 3)) by constructor.
  split; [exact Hok |]. split; [reflexivity |].
  destruct (proj2 (@delete_user_cascade plain_backend (lit "7") (owning 3)) Hok)
    as (n & w1 & m & w2 & w' & _ & _ & Hrun & _ & _ & Ha & Hu & Ha2 & Hu2 & Hnone).
  exists w'. split; [exact Hrun |]. split; [exact Hnone |].
  split.
  - rewrite Ha, Ha2. reflexivity.
  - rewrite Hu, Hu2. reflexivity.
Defined.

Example delete_user_owning_0 :
  map a_id (addresses (snd (@post_users_delete_id plain_backend (lit "7") (owning 0))))
  = [100]
  /\ map u_id (users (snd (@post_users_delete_id plain_backend (lit "7") (owning 0))))
     = [8].
Proof. split; reflexivity. Qed.

Example delete_user_owning_1 :
  map a_id (addresses (owning 1)) = [1; 100]
  /\ map a_id (addresses (snd (@post_users_delete_id plain_backend (lit "7") (owning 1))))
     = [100].
Proof. split; reflexivity. Qed.

Example delete_user_owning_3 :
  map a_id (addresses (owning 3)) = [1; 2; 3; 100]
  /\ map a_id (addresses (snd (@post_users_delete_id plain_backend (lit "7") (owning 3))))
     = [100].
Proof. split; reflexivity. Qed.

(** The first storage call goes through and the second one fails: the
    addresses are gone, the user is still there, and the answer is the same
    redirect. *)
Example delete_user_second_call_fails :
  @post_users_delete_id plain_backend (lit "7")
    (set_faults [None; Some (mkError (lit "lost connection"))] (owning 3))
  = (Returned (redirect root),
     set_console
       [Err [Text (lit "Erro ao excluir " ++ usuario ++ lit ":");
             ErrorObject (mkError (lit "lost connection"))]]
       (set_addresses [address_of 8 100] (owning 3))).
Proof. reflexivity. Qed.

Lemma listing_pagination_witness :
  parseInt (query_page second_page_of_three) = Num 2
  /\ parseInt (query_limit second_page_of_three) = Num 3
  /\ 1 <= 2 <= max_safe_integer
  /\ 1 <= 3 <= max_safe_integer
  /\ (2 - 1) * 3 <= max_safe_integer
  /\ calls_succeed 1 (crowd 7)
  /\ exists rows totalPages w',
       @get_root plain_backend second_page_of_three (crowd 7)
       = (Returned (render_home
            (mkHome rows (Some 2) (Some (Ceil totalPages)) None None None)), w')
       /\ map u_id rows = [4; 3; 2]
       /\ Z.of_nat (List.length rows) <= 3
       /\ totalPages = 3.
Proof.
  assert (Hpage : parseInt (query_page second_page_of_three) = Num 2)
    by reflexivity.
  assert (Hlimit : parseInt (query_limit second_page_of_three) = Num 3)
    by reflexivity.
  assert (Hpage1 : 1 <= 2 <= max_safe_integer) by (unfold max_safe_integer; lia).
  assert (Hlimit1 : 1 <= 3 <= max_safe_integer) by (unfold max_safe_integer; lia).
  assert (Hoffset : (2 - 1) * 3 <= max_safe_integer)
    by (unfold max_safe_integer; lia).
  assert (Hcount :
    Z.of_nat (List.length
      (filter (@satisfies plain_backend (listing_where second_page_of_three))
         (users (crowd 7)))) <= max_safe_integer)
    by (change (7 <= max_safe_integer); unfold max_safe_integer; lia).
  assert (Hok : calls_succeed 1 (crowd 7)) by constructor.
  repeat (split; [assumption |]).
  destruct (@listing_pagination plain_backend second_page_of_three (crowd 7)
              2 3 Hpage Hlimit Hpage1 Hlimit1 Hoffset Hcount Hok)
    as (rows & sorted & totalPages & w' & Hrun & _ & _ & _ & Hlen & Htotal & _).
  exists rows, totalPages, w'.
  split; [exact Hrun |]. split; [| split; [exact Hlen |]].
  - apply (f_equal fst) in Hrun. simpl in Hrun.
    injection Hrun as Hrows _. rewrite <- Hrows. reflexivity.
  - change (Z.of_nat (List.length
              (filter (@satisfies plain_backend (listing_where second_page_of_three))
                 (users (crowd 7))))) with 7 in Htotal.
    lia.
Defined.

Example listing_last_page :
  fst (@get_root plain_backend (mkListQuery (Some (lit "3")) None None None)
         (crowd 7))
  = Returned (render_home
      (mkHome [mkUser 1 (lit "Ana") None false 1] (Some 3) (Some (Ceil 3))
         None None None)).
Proof. reflexivity. Qed.

Example listing_newsletter_filter :
  fst (@get_root plain_backend
         (mkListQuery None (Some (lit "2")) None (Some (lit "true"))) (crowd 7))
  = Returned (render_home
      (mkHome [mkUser 6 (lit "Ana") None true 6; mkUser 4 (lit "Ana") None true 4]
         (Some 1) (Some (Ceil 2)) None (Some (lit "true")) None)).
Proof. reflexivity. Qed.

Lemma listing_storage_failure_witness :
  @User.findAndCountAll plain_backend (listing_where second_page_of_three)
    (listing_limit second_page_of_three) (listing_offset second_page_of_three)
    (set_faults [Some lost_connection] (crowd 7))
  = (Thrown lost_connection, crowd 7)
  /\ @get_root plain_backend second_page_of_three
       (set_faults [Some lost_connection] (crowd 7))
     = (Returned (render_home
          (mkHome [] None None None None
             (Some (lit "Erro ao carregar " ++ usuario ++ lit "s")))),
        set_console
          [Err [Text (lit "Erro ao carregar " ++ usuario ++ lit "s:");
                ErrorObject lost_connection]] (crowd 7)).
Proof.
  assert (Hfail :
    @User.findAndCountAll plain_backend (listing_where second_page_of_three)
      (listing_limit second_page_of_three) (listing_offset second_page_of_three)
      (set_faults [Some lost_connection] (crowd 7))
    = (Thrown lost_connection, crowd 7)) by reflexivity.
  split; [exact Hfail |].
  exact (proj1 (@listing_storage_failure plain_backend second_page_of_three
                  (set_faults [Some lost_connection] (crowd 7)) (crowd 7)
                  lost_connection Hfail)).
Defined.

(** A negative limit is a query the backend refuses: the listing shows the
    error and no user. *)
Example listing_negative_limit :
  fst (@get_root plain_backend (mkListQuery None (Some (lit "-1")) None None)
         (crowd 7))
  = Returned (render_home
      (mkHome [] None None None None
         (Some (lit "Erro ao carregar " ++ usuario ++ lit "s")))).
Proof. reflexivity. Qed.


Lemma create_user_persists_witness :
  form_name bob_form = Some (lit "  Bob  ")
  /\ 2 <= jlength (trim (lit "  Bob  "))
  /\ calls_succeed 1 empty_world
  /\ exists row w',
       post_users_create bob_form empty_world = (Returned (redirect root), w')
       /\ users w' = [row]
       /\ u_name row = lit "Bob"
       /\ u_occupation row = None
       /\ u_newsletter row = false.
Proof.
  assert (Hname : form_name bob_form = Some (lit "  Bob  ")) by reflexivity.
  assert (Hlen : 2 <= jlength (trim (lit "  Bob  ")))
    by (change (2 <= 3); lia).
  assert (Hok : calls_succeed 1 empty_world) by constructor.
  repeat (split; [assumption |]).
  destruct (create_user_persists bob_form (lit "  Bob  ") empty_world Hname Hlen Hok)
    as (row & w' & Hrun & Hu & _ & Hn & Ho & Hnl).
  exists row, w'. repeat split; try assumption.
  destruct (u_newsletter row); [| reflexivity].
  discriminate (proj1 Hnl eq_refl).
Defined.

Example create_user_Bob :
  post_users_create bob_form empty_world
  = (Returned (redirect root),
     mkWorld [mkUser 1 (lit "Bob") None false 0] [] 2 1 1 []
       [Log [Text (Usuario ++ lit " criado:");
             UserObject (mkUser 1 (lit "Bob") None false 0)]]).
Proof. reflexivity. Qed.

Example create_user_newsletter_on :
  map (fun u => (u_name u, u_occupation u, u_newsletter u))
    (users (snd (post_users_create
                   (mkUserForm (Some (lit "Eva")) (Some (lit " nurse "))
                      (Some (lit "on"))) empty_world)))
  = [(lit "Eva", Some (lit "nurse"), true)].
Proof. reflexivity. Qed.

(** C3 as stated fails on a blank occupation: the field is there, its
    trimmed text is the empty string, and the row holds null. *)
Lemma create_user_blank_occupation_is_null :
  exists row w',
    post_users_create blank_occupation_form empty_world
    = (Returned (redirect root), w')
    /\ users w' = [row]
    /\ occupation_as_stated (form_occupation blank_occupation_form) = Some []
    /\ u_occupation row = None
    /\ u_occupation row
       <> occupation_as_stated (form_occupation blank_occupation_form).
Proof.
  eexists. eexists.
  split; [reflexivity |]. split; [reflexivity |]. split; [reflexivity |].
  split; [reflexivity |]. discriminate.
Qed.

(** An occupation of blanks only is kept, as the empty string. *)
Example create_user_blanks_occupation :
  map u_occupation
    (users (snd (post_users_create
                   (mkUserForm (Some (lit "Bob")) (Some (lit "   ")) None)
                   empty_world)))
  = [Some []].
Proof. reflexivity. Qed.

Lemma create_user_rejects_short_name_witness :
  (exists n, form_name short_name_form = Some n /\ jlength (trim n) < 2)
  /\ post_users_create short_name_form (crowd 2)
     = (Returned (render_adduser
          (mkAddUser (Some (lit "Nome deve ter pelo menos 2 caracteres"))
             (Some (mkUserForm (Some (lit "A")) (Some (lit " clerk "))
                      (Some (lit "on")))))),
        crowd 2).
Proof.
  assert (Hbad : exists n, form_name short_name_form = Some n
                           /\ jlength (trim n) < 2).
  { exists (lit "A"). split; [reflexivity |]. change (1 < 2). lia. }
  split; [exact Hbad |].
  exact (create_user_rejects_short_name short_name_form (crowd 2)
           (or_intror Hbad)).
Defined.

Example create_user_without_name :
  post_users_create (mkUserForm None None None) empty_world
  = (Returned (render_adduser
       (mkAddUser (Some (lit "Nome deve ter pelo menos 2 caracteres"))
          (Some (mkUserForm None None None)))),
     empty_world).
Proof. reflexivity. Qed.

(** When the insertion fails the form comes back with the failure's text. *)
Example create_user_storage_failure :
  fst (post_users_create bob_form (set_faults [Some lost_connection] empty_world))
  = Returned (render_adduser
      (mkAddUser
         (Some (lit "Erro ao criar " ++ usuario ++ lit ": lost connection"))
         (Some bob_form))).
Proof. reflexivity. Qed.

Lemma update_user_behaviour_witness :
  (exists n, update_name empty_name_update = Some n /\ jlength (trim n) < 2)
  /\ @post_users_update plain_backend empty_name_update (crowd 6)
     = (Returned (redirect (lit "/users/edit/5")), crowd 6)
  /\ update_name rename_update = Some (lit " Bia ")
  /\ 2 <= jlength (trim (lit " Bia "))
  /\ update_id rename_update = Some (lit "2")
  /\ calls_succeed 1 (crowd 3)
  /\ exists w',
       @post_users_update plain_backend rename_update (crowd 3)
       = (Returned (redirect root), w')
       /\ users w'
          = [mkUser 1 (lit "Ana") None false 1;
             mkUser 2 (lit "Bia") (Some (lit "dev")) true 2;
             mkUser 3 (lit "Ana") None false 3].
Proof.
  assert (Hbad : exists n, update_name empty_name_update = Some n
                           /\ jlength (trim n) < 2).
  { exists []. split; [reflexivity |]. change (0 < 2). lia. }
  assert (Hname : update_name rename_update = Some (lit " Bia ")) by reflexivity.
  assert (Hlen : 2 <= jlength (trim (lit " Bia "))) by (change (2 <= 3); lia).
  assert (Hid : update_id rename_update = Some (lit "2")) by reflexivity.
  assert (Hok : calls_succeed 1 (crowd 3)) by constructor.
  split; [exact Hbad |].
  split; [exact (proj1 (@update_user_behaviour plain_backend empty_name_update
                          (crowd 6)) (or_intror Hbad)) |].
  repeat (split; [assumption |]).
  destruct (proj1 (proj2 (@update_user_behaviour plain_backend rename_update
                            (crowd 3)))
              (lit " Bia ") (lit "2") Hname Hlen Hid Hok) as (w' & Hrun & Hu & _).
  exists w'. split; [exact Hrun |]. rewrite Hu. reflexivity.
Defined.

(** C5 as stated fails on an update sent without an id: the name is fine,
    no storage failure is injected, and the answer is a redirect to
    [/users/edit/], not to the listing root. *)
Lemma update_without_id_goes_to_edit_page :
  update_name update_without_id = Some (lit "Bia")
  /\ 2 <= jlength (trim (lit "Bia"))
  /\ calls_succeed 1 (crowd 3)
  /\ fst (@post_users_update plain_backend update_without_id (crowd 3))
     = Returned (redirect (lit "/users/edit/"))
  /\ fst (@post_users_update plain_backend update_without_id (crowd 3))
     <> Returned (redirect (lit "/"))
  /\ users (snd (@post_users_update plain_backend update_without_id (crowd 3)))
     = users (crowd 3).
Proof.
  split; [reflexivity |]. split; [change (2 <= 3); lia |].
  split; [constructor |]. split; [reflexivity |].
  split; [discriminate | reflexivity].
Qed.

(** An update for an identifier that no row has: nothing changes and the
    answer is still the redirect to the listing root. *)
Example update_user_no_match :
  @post_users_update plain_backend
    (mkUpdateForm (Some (lit "42")) (Some (lit "Bia")) None None) (crowd 3)
  = (Returned (redirect root), crowd 3).
Proof. reflexivity. Qed.

Example update_user_without_id :
  fst (@post_users_update plain_backend (mkUpdateForm None None None None)
         (crowd 3))
  = Returned (redirect (lit "/users/edit/undefined")).
Proof. reflexivity. Qed.

Lemma lookup_failure_fallbacks_witness :
  @lookup_fails plain_backend (lit "42") (owning 3)
  /\ (exists w',
        @get_users_id plain_backend (lit "42") (owning 3)
        = (Returned (render_userview
             (mkUserView None
                (Some (Usuario ++ lit " n" ++ a_tilde ++ lit "o encontrado")))),
           w')
        /\ users w' = users (owning 3))
  /\ (exists w',
        @get_users_edit_id plain_backend (lit "42") (owning 3)
        = (Returned (redirect root), w')
        /\ users w' = users (owning 3)).
Proof.
  assert (Hmiss : @lookup_fails plain_backend (lit "42") (owning 3)).
  { right. split; [reflexivity |].
    intros u [<- | [<- | []]]; reflexivity. }
  split; [exact Hmiss |].
  destruct (@lookup_failure_fallbacks plain_backend (lit "42") (owning 3) Hmiss)
    as [(text & w1 & Hshow & _ & Htext & Hu1 & _) (w2 & Hedit & Hu2 & _)].
  split.
  - exists w1. rewrite Hshow, (Htext eq_refl). split; [reflexivity | exact Hu1].
  - exists w2. split; assumption.
Defined.

Example lookup_storage_failure :
  fst (@get_users_id plain_backend (lit "7")
         (set_faults [Some lost_connection] (owning 3)))
  = Returned (render_userview
      (mkUserView None (Some (lit "Erro ao carregar " ++ usuario))))
  /\ fst (@get_users_edit_id plain_backend (lit "7")
            (set_faults [Some lost_connection] (owning 3)))
     = Returned (redirect root).
Proof. split; reflexivity. Qed.

Example lookup_found :
  fst (@get_users_id plain_backend (lit "8") (owning 3))
  = Returned (render_userview
      (mkUserView (Some (neighbour, [address_of 8 100])) None)).
Proof. reflexivity. Qed.

Lemma create_address_behaviour_witness :
  (exists s, form_street short_street_form = Some s /\ jlength (trim s) < 5)
  /\ @post_address_create plain_backend short_street_form (owning 1)
     = (Returned (redirect (lit "/users/edit/7")), owning 1)
  /\ form_street good_address_form = Some (lit "  Rua Nova ")
  /\ 5 <= jlength (trim (lit "  Rua Nova "))
  /\ form_city good_address_form = Some (lit " Faro ")
  /\ 2 <= jlength (trim (lit " Faro "))
  /\ calls_succeed 1 (owning 0)
  /\ exists row w',
       @post_address_create plain_backend good_address_form (owning 0)
       = (Returned (redirect (lit "/users/edit/7")), w')
       /\ addresses w' = [address_of 8 100; row]
       /\ a_street row = lit "Rua Nova"
       /\ a_number row = None
       /\ a_city row = lit "Faro"
       /\ a_userId row = Some 7.
Proof.
  assert (Hbad : exists s, form_street short_street_form = Some s
                           /\ jlength (trim s) < 5).
  { exists (lit "St"). split; [reflexivity |]. change (2 < 5). lia. }
  assert (Hs : form_street good_address_form = Some (lit "  Rua Nova "))
    by reflexivity.
  assert (Hls : 5 <= jlength (trim (lit "  Rua Nova ")))
    by (change (5 <= 8); lia).
  assert (Hc : form_city good_address_form = Some (lit " Faro ")) by reflexivity.
  assert (Hlc : 2 <= jlength (trim (lit " Faro "))) by (change (2 <= 4); lia).
  assert (Hok : calls_succeed 1 (owning 0)) by constructor.
  split; [exact Hbad |].
  split; [exact (proj1 (@create_address_behaviour plain_backend short_street_form
                          (owning 1)) (or_intror (or_introl Hbad))) |].
  repeat (split; [assumption |]).
  destruct (proj2 (@create_address_behaviour plain_backend good_address_form
                     (owning 0)) _ _ Hs Hls Hc Hlc Hok)
    as (data & row & w' & Hrun & _ & _ & Hnumber & _ & _ & Ha & _ & Hstreet
        & Hrn & Hcity & Huid).
  exists row, w'. split; [exact Hrun |]. split; [exact Ha |].
  split; [exact Hstreet |]. split; [rewrite Hrn; exact Hnumber |].
  split; [exact Hcity | exact Huid].
Defined.

Example create_address_without_city :
  @post_address_create plain_backend
    (mkAddressForm None (Some (lit "Rua Nova")) None None) (owning 1)
  = (Returned (redirect (lit "/users/edit/undefined")), owning 1).
Proof. reflexivity. Qed.

(** When the insertion fails the redirect is built from [userId || '']. *)
Example create_address_storage_failure :
  fst (@post_address_create plain_backend good_address_form
         (set_faults [Some lost_connection] (owning 0)))
  = Returned (redirect (lit "/users/edit/7")).
Proof. reflexivity. Qed.

Lemma delete_address_behaviour_witness :
  calls_succeed 1 (owning 3)
  /\ delete_id delete_nine = Some (lit "9")
  /\ (exists w',
        @post_address_delete plain_backend delete_nine (owning 3)
        = (Returned (redirect (lit "/")), w')
        /\ addresses w' = addresses (owning 3))
  /\ delete_id (mkAddressDeleteForm None (Some (lit "7"))) = None
  /\ fst (@post_address_delete plain_backend
            (mkAddressDeleteForm None (Some (lit "7"))) (owning 3))
     = Returned (redirect (lit "/")).
Proof.
  assert (Hok : calls_succeed 1 (owning 3)) by constructor.
  assert (Hid : delete_id delete_nine = Some (lit "9")) by reflexivity.
  assert (Hnone : delete_id (mkAddressDeleteForm None (Some (lit "7"))) = None)
    by reflexivity.
  split; [exact Hok |]. split; [exact Hid |]. split.
  - destruct (proj1 (@delete_address_behaviour plain_backend delete_nine
                       (owning 3) Hok) (lit "9") Hid) as (w' & Hrun & Ha & _).
    exists w'. split; [exact Hrun |]. rewrite Ha. reflexivity.
  - split; [exact Hnone |].
    rewrite (proj2 (@delete_address_behaviour plain_backend
                      (mkAddressDeleteForm None (Some (lit "7"))) (owning 3) Hok)
               Hnone).
    reflexivity.
Defined.

(** The address 2 belongs to user 7; it is deleted on behalf of user 8. *)
Example delete_address_of_another_user :
  map a_id (addresses (snd (@post_address_delete plain_backend
                              (mkAddressDeleteForm (Some (lit "2")) (Some (lit "8")))
                              (owning 3))))
  = [1; 3; 100]
  /\ fst (@post_address_delete plain_backend
            (mkAddressDeleteForm (Some (lit "2")) (Some (lit "8"))) (owning 3))
     = Returned (redirect (lit "/users/edit/8")).
Proof. split; reflexivity. Qed.

(** C8 as stated fails on an empty userId: the field is supplied, the edit
    page of that userId is [/users/edit/], and the answer is the listing
    root. *)
Lemma delete_address_empty_userId_goes_to_root :
  delete_redirect_as_stated (delete_userId delete_nine_empty_userId)
  = lit "/users/edit/"
  /\ fst (@post_address_delete plain_backend delete_nine_empty_userId (owning 3))
     = Returned (redirect (lit "/"))
  /\ fst (@post_address_delete plain_backend delete_nine_empty_userId (owning 3))
     <> Returned (redirect
          (delete_redirect_as_stated (delete_userId delete_nine_empty_userId))).
Proof.
  split; [reflexivity |]. split; [reflexivity |]. discriminate.
Qed.

Example delete_address_storage_failure :
  fst (@post_address_delete plain_backend
         (mkAddressDeleteForm (Some (lit "2")) (Some (lit "7")))
         (set_faults [Some lost_connection] (owning 3)))
  = Returned (redirect (lit "/")).
Proof. reflexivity. Qed.

(** ** The helper [range] *)

(** X1.  For safe integers [from] and [to] that are no more than the longest
    array apart, [range(from, to)] has [to - from + 1] entries, none when
    [to] is below [from]; its entry [i] is [from + i]; and an integer is
    among its entries exactly when it lies between [from] and [to]. *)
Theorem range_entries (from to : Z)
    (Hfrom : safe_integer from) (Hto : safe_integer to)
    (Hlength : to - from + 1 <= max_array_length) :
  List.length (range from to) = Z.to_nat (to - from + 1)
  /\ (forall i, (i < List.length (range from to))%nat ->
        nth i (range from to) 0 = from + Z.of_nat i)
  /\ (forall x, In x (range from to) <-> from <= x <= to)
  /\ (range from to = [] <-> to < from).
Proof.
  unfold range. split; [| split; [| split]].
  - rewrite length_map, length_seq. reflexivity.
  - intros i Hi. rewrite length_map, length_seq in Hi.
    set (entry := fun i => Z.of_nat i + from).
    rewrite (nth_indep _ 0 (entry 0%nat))
      by (rewrite length_map, length_seq; exact Hi).
    rewrite (map_nth entry), seq_nth by exact Hi. unfold entry. simpl. lia.
  - intros x. rewrite in_map_iff. split.
    + intros (i & <- & Hi). apply in_seq in Hi. lia.
    + intros Hx. exists (Z.to_nat (x - from)). split; [lia |].
      apply in_seq. lia.
  - split.
    + intros Hnil. apply (f_equal (@List.length Z)) in Hnil.
      rewrite length_map, length_seq in Hnil. simpl in Hnil. lia.
    + intros Hlt. replace (Z.to_nat (to - from + 1)) with 0%nat by lia.
      reflexivity.
Qed.

Example range_of_pages : range 1 3 = [1; 2; 3].
Proof. reflexivity. Qed.

Example range_backwards : range 5 2 = [].
Proof. reflexivity. Qed.

(** ** Each route writes to its own table only *)

(** A route writes to the tables it is meant to write to, and to no other. *)
Lemma handle_frame `{Backend} (request : Request) (w : World) :
  (writes_users request = false -> users (snd (handle request w)) = users w)
  /\ (writes_addresses request = false ->
      addresses (snd (handle request w)) = addresses w).
Proof.
  destruct request as [query | | body | id | id | body | id | body | body];
    simpl; (split; [try discriminate | try discriminate]); intros _.
  - unfold get_root, try_catch, bind.
    pose proof (findAndCountAll_reads_only (listing_where query)
                  (listing_limit query) (listing_offset query) w) as (Hu & _).
    destruct (User.findAndCountAll _ _ _ w) as [[[rows count] | e] w1];
      exact Hu.
  - unfold get_root, try_catch, bind.
    pose proof (findAndCountAll_reads_only (listing_where query)
                  (listing_limit query) (listing_offset query) w) as (_ & Ha & _).
    destruct (User.findAndCountAll _ _ _ w) as [[[rows count] | e] w1];
      exact Ha.
  - reflexivity.
  - reflexivity.
  - unfold post_users_create, try_catch, bind, User.create, storage_call.
    destruct (valid_name (form_name body)); [| reflexivity].
    destruct (hd None (faults w)); reflexivity.
  - unfold get_users_id, try_catch, bind, User.findByPk, storage_call.
    destruct (hd None (faults w)); [reflexivity |].
    destruct (find _ _); reflexivity.
  - unfold get_users_id, try_catch, bind, User.findByPk, storage_call.
    destruct (hd None (faults w)); [reflexivity |].
    destruct (find _ _); reflexivity.
  - unfold get_users_edit_id, try_catch, bind, User.findByPk, storage_call.
    destruct (hd None (faults w)); [reflexivity |].
    destruct (find _ _); reflexivity.
  - unfold get_users_edit_id, try_catch, bind, User.findByPk, storage_call.
    destruct (hd None (faults w)); [reflexivity |].
    destruct (find _ _); reflexivity.
  - unfold post_users_update, try_catch, bind, User.update, storage_call.
    destruct (valid_name (update_name body)); [| reflexivity].
    destruct (hd None (faults w)); [reflexivity |].
    destruct (update_id body); [| reflexivity]. simpl.
    destruct (0 <? _); reflexivity.
  - unfold post_address_create, try_catch, bind, Address.create, storage_call.
    destruct (valid_address _ _) as [[s c] |]; [| reflexivity].
    destruct (hd None (faults w)); reflexivity.
  - unfold post_address_delete, try_catch, bind, Address.destroy_where_id,
      storage_call.
    destruct (hd None (faults w)); [reflexivity |].
    destruct (delete_id body); reflexivity.
Qed.

(** X3.  In every world, a route that is not one of the three that write
    users leaves the table of users as it was, and a route that is not one
    of the three that write addresses leaves the table of addresses as it
    was.  The GET routes write to neither. *)
Theorem handlers_write_their_own_table `{Backend} (request : Request) (w : World) :
  (writes_users request = false -> users (snd (handle request w)) = users w)
  /\ (writes_addresses request = false ->
      addresses (snd (handle request w)) = addresses w).
Proof.
  apply handle_frame.
Qed.

Lemma handlers_write_their_own_table_witness :
  writes_users (POST_address_delete (mkAddressDeleteForm (Some (lit "2")) None))
  = false
  /\ users (snd (@handle plain_backend
                   (POST_address_delete (mkAddressDeleteForm (Some (lit "2")) None))
                   (owning 3)))
     = users (owning 3)
  /\ writes_addresses (POST_users_create bob_form) = false
  /\ addresses (snd (@handle plain_backend (POST_users_create bob_form) (owning 3)))
     = addresses (owning 3).
Proof.
  split; [reflexivity |].
  split; [exact (proj1 (@handlers_write_their_own_table plain_backend
                          (POST_address_delete
                             (mkAddressDeleteForm (Some (lit "2")) None))
                          (owning 3)) eq_refl) |].
  split; [reflexivity |].
  exact (proj2 (@handlers_write_their_own_table plain_backend
                  (POST_users_create bob_form) (owning 3)) eq_refl).
Defined.

(** ** When the backend fails a call *)

(** X4.  POST /users/delete/:id is not atomic.  When the backend fails the
    first call, nothing is deleted.  When it lets the first call through and
    fails the second, the addresses that refer to [id] are gone and the users
    are all still there.  Either way the failure is written to the console
    and the answer is the redirect to the listing root. *)
Theorem delete_user_partial_failure `{Backend} (id : jstring) (w : World)
    (e : Error) :
  (call_fails e w ->
   post_users_delete_id id w
   = (Returned (redirect root),
      set_console
        (console w ++
         [Err [Text (lit "Erro ao excluir " ++ usuario ++ lit ":"); ErrorObject e]])
        (next_call w)))
  /\
  (hd None (faults w) = None -> call_fails e (next_call w) ->
   exists w',
     post_users_delete_id id w = (Returned (redirect root), w')
     /\ users w' = users w
     /\ addresses w'
        = filter (fun a => negb (key_refers (Some id) (a_userId a))) (addresses w)
     /\ console w'
        = console w ++
          [Err [Text (lit "Erro ao excluir " ++ usuario ++ lit ":"); ErrorObject e]]).
Proof.
  split.
  - intros Hfail. unfold post_users_delete_id, try_catch, bind,
      Address.destroy_where_userId.
    rewrite (storage_call_fails _ e w Hfail). reflexivity.
  - intros Hfirst Hsecond.
    unfold post_users_delete_id, try_catch, bind, Address.destroy_where_userId,
      User.destroy.
    unfold storage_call at 1 2. rewrite Hfirst.
    unfold call_fails in Hsecond.
    unfold storage_call. simpl. simpl in Hsecond. rewrite Hsecond.
    eexists. split; [reflexivity |]. repeat split.
Qed.

Lemma delete_user_partial_failure_witness :
  hd None (faults (set_faults [None; Some lost_connection] (owning 3))) = None
  /\ call_fails lost_connection
       (next_call (set_faults [None; Some lost_connection] (owning 3)))
  /\ exists w',
       @post_users_delete_id plain_backend (lit "7")
         (set_faults [None; Some lost_connection] (owning 3))
       = (Returned (redirect root), w')
       /\ users w' = [owner; neighbour]
       /\ addresses w' = [address_of 8 100].
Proof.
  assert (Hfirst : hd None (faults (set_faults [None; Some lost_connection]
                                      (owning 3))) = None) by reflexivity.
  assert (Hsecond : call_fails lost_connection
            (next_call (set_faults [None; Some lost_connection] (owning 3))))
    by reflexivity.
  split; [exact Hfirst |]. split; [exact Hsecond |].
  destruct (proj2 (@delete_user_partial_failure plain_backend (lit "7")
                     (set_faults [None; Some lost_connection] (owning 3))
                     lost_connection) Hfirst Hsecond)
    as (w' & Hrun & Hu & Ha & _).
  exists w'. split; [exact Hrun |]. split; [exact Hu |].
  rewrite Ha. reflexivity.
Defined.

(** X5.  POST /users/create with a name that passes the validation, when the
    backend fails the insertion with [e]: no row is written, the failure is
    written to the console, and the create form comes back with the text
    [Erro ao criar usuario: ] followed by the message of [e], and with the
    body of the request as form data. *)
Theorem create_user_storage_failure_shows_message (body : UserForm)
    (n : jstring) (w : World) (e : Error)
    (Hname : valid_name (form_name body) = Some n) (Hfail : call_fails e w) :
  post_users_create body w
  = (Returned (render_adduser
       (mkAddUser
          (Some (lit "Erro ao criar " ++ usuario ++ lit ": " ++ message e))
          (Some body))),
     set_console
       (console w ++
        [Err [Text (lit "Erro ao criar " ++ usuario ++ lit ":"); ErrorObject e]])
       (next_call w)).
Proof.
  unfold post_users_create, try_catch, bind, User.create.
  rewrite Hname, (storage_call_fails _ e w Hfail). reflexivity.
Qed.

Lemma create_user_storage_failure_shows_message_witness :
  valid_name (form_name bob_form) = Some (lit "  Bob  ")
  /\ call_fails lost_connection (set_faults [Some lost_connection] (crowd 2))
  /\ fst (post_users_create bob_form (set_faults [Some lost_connection] (crowd 2)))
     = Returned (render_adduser
         (mkAddUser
            (Some (lit "Erro ao criar " ++ usuario ++ lit ": lost connection"))
            (Some bob_form)))
  /\ users (snd (post_users_create bob_form
                   (set_faults [Some lost_connection] (crowd 2))))
     = users (crowd 2).
Proof.
  assert (Hname : valid_name (form_name bob_form) = Some (lit "  Bob  "))
    by reflexivity.
  assert (Hfail : call_fails lost_connection
                    (set_faults [Some lost_connection] (crowd 2)))
    by reflexivity.
  split; [exact Hname |]. split; [exact Hfail |].
  rewrite (create_user_storage_failure_shows_message bob_form (lit "  Bob  ")
             (set_faults [Some lost_connection] (crowd 2)) lost_connection
             Hname Hfail).
  split; reflexivity.
Defined.

(** X6.  POST /users/update with a name that passes the validation, when the
    backend fails the update: no row is changed, the failure is written to
    the console, and the answer is a redirect to [/users/edit/] followed by
    the submitted id, or by nothing when the id is absent or empty (where the
    validation path writes [undefined] for an absent id). *)
Theorem update_user_storage_failure `{Backend} (body : UpdateForm) (n : jstring)
    (w : World) (e : Error)
    (Hname : valid_name (update_name body) = Some n) (Hfail : call_fails e w) :
  post_users_update body w
  = (Returned (redirect (lit "/users/edit/"
                         ++ match update_id body with
                            | Some (c :: id) => c :: id
                            | Some [] => []
                            | None => []
                            end)),
     set_console
       (console w ++
        [Err [Text (lit "Erro ao atualizar " ++ usuario ++ lit ":"); ErrorObject e]])
       (next_call w)).
Proof.
  unfold post_users_update, try_catch, bind, User.update.
  rewrite Hname, (storage_call_fails _ e w Hfail).
  destruct (update_id body) as [[| c id] |]; reflexivity.
Qed.

Lemma update_user_storage_failure_witness :
  valid_name (update_name (mkUpdateForm None (Some (lit "Bia")) None None))
  = Some (lit "Bia")
  /\ call_fails lost_connection (set_faults [Some lost_connection] (crowd 2))
  /\ fst (@post_users_update plain_backend
            (mkUpdateForm None (Some (lit "Bia")) None None)
            (set_faults [Some lost_connection] (crowd 2)))
     = Returned (redirect (lit "/users/edit/"))
  /\ fst (@post_users_update plain_backend
            (mkUpdateForm None (Some (lit "B")) None None)
            (set_faults [Some lost_connection] (crowd 2)))
     = Returned (redirect (lit "/users/edit/undefined")).
Proof.
  assert (Hname : valid_name (update_name
                    (mkUpdateForm None (Some (lit "Bia")) None None))
                  = Some (lit "Bia")) by reflexivity.
  assert (Hfail : call_fails lost_connection
                    (set_faults [Some lost_connection] (crowd 2)))
    by reflexivity.
  split; [exact Hname |]. split; [exact Hfail |].
  rewrite (@update_user_storage_failure plain_backend
             (mkUpdateForm None (Some (lit "Bia")) None None) (lit "Bia")
             (set_faults [Some lost_connection] (crowd 2)) lost_connection
             Hname Hfail).
  split; reflexivity.
Defined.

(** X7.  POST /address/create with a street and a city that pass the
    validation, when the backend fails the insertion: no row is written, the
    failure is written to the console, and the answer is a redirect to
    [/users/edit/] followed by the submitted userId, or by nothing when the
    userId is absent or empty. *)
Theorem create_address_storage_failure_redirects `{Backend} (body : AddressForm)
    (s c : jstring) (w : World) (e : Error)
    (Hvalid : valid_address (form_street body) (form_city body) = Some (s, c))
    (Hfail : call_fails e w) :
  post_address_create body w
  = (Returned (redirect (lit "/users/edit/"
                         ++ match form_userId body with
                            | Some (d :: id) => d :: id
                            | Some [] => []
                            | None => []
                            end)),
     set_console
       (console w ++
        [Err [Text (lit "Erro ao criar " ++ endereco ++ lit ":"); ErrorObject e]])
       (next_call w)).
Proof.
  unfold post_address_create, try_catch, bind, Address.create.
  rewrite Hvalid, (storage_call_fails _ e w Hfail).
  destruct (form_userId body) as [[| d id] |]; reflexivity.
Qed.

Lemma create_address_storage_failure_redirects_witness :
  valid_address (form_street good_address_form) (form_city good_address_form)
  = Some (lit "  Rua Nova ", lit " Faro ")
  /\ call_fails lost_connection (set_faults [Some lost_connection] (owning 1))
  /\ @post_address_create plain_backend good_address_form
       (set_faults [Some lost_connection] (owning 1))
     = (Returned (redirect (lit "/users/edit/7")),
        set_console
          [Err [Text (lit "Erro ao criar " ++ endereco ++ lit ":");
                ErrorObject lost_connection]] (owning 1)).
Proof.
  assert (Hvalid : valid_address (form_street good_address_form)
                     (form_city good_address_form)
                   = Some (lit "  Rua Nova ", lit " Faro ")) by reflexivity.
  assert (Hfail : call_fails lost_connection
                    (set_faults [Some lost_connection] (owning 1)))
    by reflexivity.
  split; [exact Hvalid |]. split; [exact Hfail |].
  exact (@create_address_storage_failure_redirects plain_backend
           good_address_form _ _ (set_faults [Some lost_connection] (owning 1))
           lost_connection Hvalid Hfail).
Defined.

(** X8.  POST /address/delete when the backend fails the deletion: no row is
    deleted, the failure is written to the console, and the answer is a
    redirect to the listing root, whatever userId was submitted. *)
Theorem delete_address_storage_failure_goes_to_root `{Backend}
    (body : AddressDeleteForm) (w : World) (e : Error)
    (Hfail : call_fails e w) :
  post_address_delete body w
  = (Returned (redirect root),
     set_console
       (console w ++
        [Err [Text (lit "Erro ao excluir " ++ endereco ++ lit ":"); ErrorObject e]])
       (next_call w)).
Proof.
  unfold post_address_delete, try_catch, bind, Address.destroy_where_id.
  rewrite (storage_call_fails _ e w Hfail). reflexivity.
Qed.

Lemma delete_address_storage_failure_goes_to_root_witness :
  call_fails lost_connection (set_faults [Some lost_connection] (owning 3))
  /\ @post_address_delete plain_backend
       (mkAddressDeleteForm (Some (lit "2")) (Some (lit "7")))
       (set_faults [Some lost_connection] (owning 3))
     = (Returned (redirect (lit "/")),
        set_console
          [Err [Text (lit "Erro ao excluir " ++ endereco ++ lit ":");
                ErrorObject lost_connection]] (owning 3)).
Proof.
  assert (Hfail : call_fails lost_connection
                    (set_faults [Some lost_connection] (owning 3)))
    by reflexivity.
  split; [exact Hfail |].
  exact (@delete_address_storage_failure_goes_to_root plain_backend
           (mkAddressDeleteForm (Some (lit "2")) (Some (lit "7")))
           (set_faults [Some lost_connection] (owning 3)) lost_connection Hfail).
Defined.

(** ** What the listing shows *)

Lemma In_insert_desc {A} (time : A -> Z) (x y : A) (l : list A) :
  In y (insert_desc time x l) <-> y = x \/ In y l.
Proof.
  induction l as [| z l IH]; simpl.
  - intuition congruence.
  - destruct (time z <=? time x); simpl; [intuition congruence |].
    rewrite IH. intuition congruence.
Qed.

Lemma In_order_desc {A} (time : A -> Z) (y : A) (l : list A) :
  In y (order_desc time l) <-> In y l.
Proof.
  unfold order_desc. induction l as [| x l IH]; simpl; [reflexivity |].
  rewrite In_insert_desc, IH. intuition congruence.
Qed.

Lemma length_insert_desc {A} (time : A -> Z) (x : A) (l : list A) :
  List.length (insert_desc time x l) = S (List.length l).
Proof.
  induction l as [| z l IH]; simpl; [reflexivity |].
  destruct (time z <=? time x); simpl; [reflexivity |].
  rewrite IH. reflexivity.
Qed.

Lemma length_order_desc {A} (time : A -> Z) (l : list A) :
  List.length (order_desc time l) = List.length l.
Proof.
  unfold order_desc. induction l as [| x l IH]; simpl; [reflexivity |].
  rewrite length_insert_desc, IH. reflexivity.
Qed.

Lemma In_page_of_rows {A} (limit offset : Z) (y : A) (l : list A) :
  In y (page_of_rows limit offset l) -> In y l.
Proof.
  unfold page_of_rows. intros Hin.
  rewrite <- (firstn_skipn (Z.to_nat offset) l). apply in_or_app. right.
  rewrite <- (firstn_skipn (Z.to_nat limit) (skipn (Z.to_nat offset) l)).
  apply in_or_app. left. exact Hin.
Qed.

(** GET / shows nothing, or the page that the query cuts out. *)
Lemma listing_rows_cases `{Backend} (req : ListQuery) (w : World) :
  listing_rows req w = []
  \/ listing_rows req w
     = page_of_rows (listing_limit req) (listing_offset req)
         (order_desc u_createdAt
            (filter (satisfies (listing_where req)) (users w))).
Proof.
  unfold listing_rows, get_root, try_catch, bind, User.findAndCountAll,
    storage_call.
  destruct (hd None (faults w)); [left; reflexivity |].
  destruct ((listing_limit req <? 0) || (listing_offset req <? 0));
    [left; reflexivity | right; reflexivity].
Qed.


(** X9.  In every world, a user that GET / shows is a row of the table that
    passes the filters of the request: with a non-empty [q], its name matches
    the pattern [%q%]; with a non-empty [newsletter], its newsletter flag is
    true when the parameter is the text [true] and false for any other
    text. *)
Theorem listing_shows_matching_rows `{Backend} (req : ListQuery) (w : World)
    (u : UserRow) (Hshown : In u (listing_rows req w)) :
  In u (users w)
  /\ (forall q, present (query_q req) = Some q ->
        like (lit "%" ++ q ++ lit "%") (u_name u) = true)
  /\ (truthy (query_newsletter req) = true ->
      u_newsletter u = strict_eq (query_newsletter req) (lit "true")).
Proof.
  destruct (listing_rows_cases req w) as [Hrows | Hrows];
    rewrite Hrows in Hshown; [destruct Hshown |].
  apply In_page_of_rows, In_order_desc, filter_In in Hshown
    as [Hin Hsat].
  split; [exact Hin |].
  unfold satisfies, listing_where in Hsat. simpl in Hsat.
  apply andb_true_iff in Hsat as [Hname Hflag].
  split.
  - intros q Hq. rewrite Hq in Hname. exact Hname.
  - intros Htruthy. rewrite Htruthy in Hflag.
    apply Bool.eqb_prop in Hflag. exact Hflag.
Qed.

Lemma listing_shows_matching_rows_witness :
  In (mkUser 3 (lit "Ana") None false 3)
    (@listing_rows plain_backend not_subscribed (crowd 4))
  /\ truthy (query_newsletter not_subscribed) = true
  /\ u_newsletter (mkUser 3 (lit "Ana") None false 3) = false
  /\ @listing_rows plain_backend not_subscribed (crowd 4)
     = [mkUser 3 (lit "Ana") None false 3; mkUser 1 (lit "Ana") None false 1].
Proof.
  assert (Hshown : In (mkUser 3 (lit "Ana") None false 3)
                     (@listing_rows plain_backend not_subscribed (crowd 4)))
    by (left; reflexivity).
  split; [exact Hshown |]. split; [reflexivity |].
  split; [| reflexivity].
  exact (proj2 (proj2 (@listing_shows_matching_rows plain_backend
                         not_subscribed (crowd 4) _ Hshown)) eq_refl).
Defined.

(** X10.  Take a listing request whose page and limit parameters parse to
    integers [page] and [limit] of at least 1, all the numbers involved being
    safe integers, and a backend that lets the query through.  GET / shows
    [page] as the current page and a number of pages [t]; the page it shows
    is empty exactly when [page] is beyond [t].  In particular every page
    from 1 to [t] has a row, and with no matching row at all [t] is 0 and
    page 1 is empty. *)
Theorem listing_empty_past_last_page `{Backend} (req : ListQuery) (w : World)
    (page limit : Z)
    (Hpage : parseInt (query_page req) = Num page)
    (Hlimit : parseInt (query_limit req) = Num limit)
    (Hpage1 : 1 <= page <= max_safe_integer)
    (Hlimit1 : 1 <= limit <= max_safe_integer)
    (Hoffset : (page - 1) * limit <= max_safe_integer)
    (Hcount : Z.of_nat (List.length
                (filter (satisfies (listing_where req)) (users w)))
              <= max_safe_integer)
    (Hok : calls_succeed 1 w) :
  exists rows t w',
    get_root req w
    = (Returned (render_home
         (mkHome rows (Some page) (Some (Ceil t))
            (query_q req) (query_newsletter req) None)), w')
    /\ 0 <= t
    /\ (rows = [] <-> t < page).
Proof.
  set (matching := filter (satisfies (listing_where req)) (users w)) in *.
  set (count := Z.of_nat (List.length matching)) in *.
  assert (Hp : listing_page req = page)
    by (unfold listing_page; rewrite Hpage; apply number_or_parsed; lia).
  assert (Hl : listing_limit req = limit)
    by (unfold listing_limit; rewrite Hlimit; apply number_or_parsed; lia).
  assert (Ho : listing_offset req = (page - 1) * limit)
    by (unfold listing_offset; rewrite Hp, Hl; reflexivity).
  assert (Hoff0 : 0 <= (page - 1) * limit) by nia.
  pose proof (ceiling_bounds count limit ltac:(lia)) as Hceil.
  exists (page_of_rows limit ((page - 1) * limit)
            (order_desc u_createdAt matching)),
    (- (- count / limit)), (next_call w).
  split; [| split].
  - unfold get_root, try_catch, bind. rewrite Hp, Hl, Ho.
    rewrite (findAndCountAll_succeeds _ _ _ 0 w Hok) by lia.
    unfold ret, Math_ceil_div. fold matching count.
    replace (limit =? 0) with false by (symmetry; apply Z.eqb_neq; lia).
    reflexivity.
  - assert (0 <= count) by (unfold count; lia). nia.
  - unfold page_of_rows.
    assert (Hfirst : forall l : list UserRow,
              firstn (Z.to_nat limit) l = [] <-> l = []).
    { intros l. destruct l as [| x l]; [rewrite firstn_nil; tauto |].
      destruct (Z.to_nat limit) eqn:E; [lia |].
      simpl. split; discriminate. }
    rewrite Hfirst, <- skipn_all_iff, length_order_desc.
    split; intros Hle.
    + assert (count <= (page - 1) * limit) by (unfold count; lia).
      nia.
    + assert (count <= (page - 1) * limit) by nia.
      unfold count in *. lia.
Qed.

Lemma listing_empty_past_last_page_witness :
  parseInt (query_page fourth_page_of_three) = Num 4
  /\ parseInt (query_limit fourth_page_of_three) = Num 3
  /\ 1 <= 4 <= max_safe_integer
  /\ 1 <= 3 <= max_safe_integer
  /\ (4 - 1) * 3 <= max_safe_integer
  /\ calls_succeed 1 (crowd 7)
  /\ fst (@get_root plain_backend fourth_page_of_three (crowd 7))
     = Returned (render_home (mkHome [] (Some 4) (Some (Ceil 3)) None None None)).
Proof.
  assert (Hpage : parseInt (query_page fourth_page_of_three) = Num 4)
    by reflexivity.
  assert (Hlimit : parseInt (query_limit fourth_page_of_three) = Num 3)
    by reflexivity.
  assert (Hpage1 : 1 <= 4 <= max_safe_integer) by (unfold max_safe_integer; lia).
  assert (Hlimit1 : 1 <= 3 <= max_safe_integer) by (unfold max_safe_integer; lia).
  assert (Hoffset : (4 - 1) * 3 <= max_safe_integer)
    by (unfold max_safe_integer; lia).
  assert (Hcount :
    Z.of_nat (List.length
      (filter (@satisfies plain_backend (listing_where fourth_page_of_three))
         (users (crowd 7)))) <= max_safe_integer)
    by (change (7 <= max_safe_integer); unfold max_safe_integer; lia).
  assert (Hok : calls_succeed 1 (crowd 7)) by constructor.
  repeat (split; [assumption |]).
  destruct (@listing_empty_past_last_page plain_backend fourth_page_of_three
              (crowd 7) 4 3 Hpage Hlimit Hpage1 Hlimit1 Hoffset Hcount Hok)
    as (rows & t & w' & Hrun & _ & _).
  rewrite Hrun. simpl.
  apply (f_equal fst) in Hrun. simpl in Hrun.
  injection Hrun as <- <-. reflexivity.
Defined.







(** ** What the validations keep out of the tables *)

Lemma trimStart_starts_clean (s : jstring) : starts_clean (trimStart s).
Proof.
  induction s as [| c s IH]; simpl; [exact I |].
  destruct (is_whitespace c) eqn:E; [exact IH | exact E].
Qed.

Lemma trimStart_fixed (s : jstring) : starts_clean s -> trimStart s = s.
Proof.
  destruct s as [| c s]; simpl; [reflexivity |]. intros ->. reflexivity.
Qed.

(** [trimStart] drops a prefix. *)
Lemma trimStart_suffix (s : jstring) : exists p, s = p ++ trimStart s.
Proof.
  induction s as [| c s [p IH]]; simpl.
  - exists []. reflexivity.
  - destruct (is_whitespace c).
    + exists (c :: p). simpl. rewrite <- IH. reflexivity.
    + exists []. reflexivity.
Qed.

(** [trimEnd] drops a suffix. *)
Lemma trimEnd_prefix (s : jstring) : exists q, s = trimEnd s ++ q.
Proof.
  unfold trimEnd. destruct (trimStart_suffix (rev s)) as [p Hp].
  exists (rev p). rewrite <- rev_app_distr, <- Hp, rev_involutive. reflexivity.
Qed.

Lemma trimEnd_starts_clean (s : jstring) :
  starts_clean s -> starts_clean (trimEnd s).
Proof.
  intros Hs. destruct (trimEnd_prefix s) as [q Hq].
  destruct (trimEnd s) as [| c r]; [exact I |].
  rewrite Hq in Hs. exact Hs.
Qed.

Lemma trimEnd_idempotent (s : jstring) : trimEnd (trimEnd s) = trimEnd s.
Proof.
  unfold trimEnd. rewrite rev_involutive.
  rewrite (trimStart_fixed _ (trimStart_starts_clean (rev s))). reflexivity.
Qed.

Lemma trim_idempotent (s : jstring) : trim (trim s) = trim s.
Proof.
  unfold trim.
  rewrite (trimStart_fixed (trimEnd (trimStart s)))
    by (apply trimEnd_starts_clean, trimStart_starts_clean).
  apply trimEnd_idempotent.
Qed.

Lemma valid_name_sound (name : field) (n : jstring) :
  valid_name name = Some n -> clean (trim n) 2.
Proof.
  unfold valid_name, clean. destruct (present name) as [n' |]; [| discriminate].
  destruct (jlength (trim n') <? 2) eqn:E; [discriminate |].
  intros [= <-]. apply Z.ltb_ge in E.
  split; [apply trim_idempotent | exact E].
Qed.

Lemma valid_address_sound (street city : field) (s c : jstring) :
  valid_address street city = Some (s, c) ->
  clean (trim s) 5 /\ clean (trim c) 2.
Proof.
  unfold valid_address, clean.
  destruct (present street) as [s' |]; [| discriminate].
  destruct (jlength (trim s') <? 5) eqn:Es; [discriminate |].
  destruct (present city) as [c' |]; [| discriminate].
  destruct (jlength (trim c') <? 2) eqn:Ec; [discriminate |].
  intros [= <- <-]. apply Z.ltb_ge in Es, Ec.
  repeat split; try apply trim_idempotent; assumption.
Qed.

Lemma trimmed_option_clean (f : field) :
  clean_option match present f with
               | Some s => Some (trim s)
               | None => None
               end.
Proof.
  destruct (present f); simpl; [apply trim_idempotent | exact I].
Qed.

Lemma Forall_filter {A} (P : A -> Prop) (f : A -> bool) (l : list A) :
  Forall P l -> Forall P (filter f l).
Proof.
  intros Hall. apply Forall_forall. intros x Hx.
  apply filter_In in Hx as [Hx _].
  revert x Hx. apply Forall_forall. exact Hall.
Qed.

Lemma Forall_rewrite {A} (P : A -> Prop) (hit : A -> bool) (f : A -> A)
    (l : list A) :
  (forall x, P (f x)) -> Forall P l ->
  Forall P (map (fun x => if hit x then f x else x) l).
Proof.
  intros Hf Hall. induction Hall as [| x l Hx _ IH]; simpl; constructor.
  - destruct (hit x); [apply Hf | exact Hx].
  - exact IH.
Qed.

Lemma handle_keeps_well_formed `{Backend} (request : Request) (w : World) :
  well_formed w -> well_formed (snd (handle request w)).
Proof.
  intros [Husers Haddresses].
  pose proof (handle_frame request w) as [Hu Ha].
  destruct request as [query | | body | id | id | body | id | body | body];
    try (split; [rewrite (Hu eq_refl) | rewrite (Ha eq_refl)]; assumption).
  - split; [| rewrite (Ha eq_refl); exact Haddresses].
    simpl. unfold post_users_create, try_catch, bind, User.create, storage_call.
    destruct (valid_name (form_name body)) as [n |] eqn:Hname; [| exact Husers].
    destruct (hd None (faults w)); [exact Husers |]. simpl.
    apply Forall_app. split; [exact Husers |].
    constructor; [| constructor]. split; simpl.
    + exact (valid_name_sound _ _ Hname).
    + apply trimmed_option_clean.
  - split; [| rewrite (Ha eq_refl); exact Haddresses].
    simpl. unfold post_users_update, try_catch, bind, User.update, storage_call.
    destruct (valid_name (update_name body)) as [n |] eqn:Hname; [| exact Husers].
    destruct (hd None (faults w)); [exact Husers |].
    destruct (update_id body) as [id |]; [| exact Husers]. simpl.
    assert (Hmap : Forall valid_user
              (map (fun u => if key_is (Some id) (u_id u)
                             then User.write
                                    (user_data n (update_occupation body)
                                       (update_newsletter body)) u
                             else u) (users w))).
    { apply Forall_rewrite; [| exact Husers].
      intros u. split; simpl.
      - exact (valid_name_sound _ _ Hname).
      - apply trimmed_option_clean. }
    destruct (0 <? _); exact Hmap.
  - simpl. unfold post_users_delete_id, try_catch, bind,
      Address.destroy_where_userId, User.destroy, storage_call.
    destruct (hd None (faults w)); [split; assumption |]. simpl.
    destruct (hd None (tl (faults w))); simpl.
    + split; [exact Husers | apply Forall_filter; exact Haddresses].
    + destruct (0 <? _); simpl;
        (split; [apply Forall_filter; exact Husers
                | apply Forall_filter; exact Haddresses]).
  - split; [rewrite (Hu eq_refl); exact Husers |].
    simpl. unfold post_address_create, try_catch, bind, Address.create,
      storage_call.
    destruct (valid_address (form_street body) (form_city body))
      as [[s c] |] eqn:Hvalid; [| exact Haddresses].
    destruct (hd None (faults w)); [exact Haddresses |]. simpl.
    apply Forall_app. split; [exact Haddresses |].
    constructor; [| constructor].
    destruct (valid_address_sound _ _ _ _ Hvalid) as [Hs Hc].
    split; [exact Hs |]. split; [apply trimmed_option_clean | exact Hc].
  - split; [rewrite (Hu eq_refl); exact Husers |].
    simpl. unfold post_address_delete, try_catch, bind,
      Address.destroy_where_id, storage_call.
    destruct (hd None (faults w)); [exact Haddresses |].
    destruct (delete_id body); [| exact Haddresses]. simpl.
    apply Forall_filter. exact Haddresses.
Qed.

(** X12.  Whatever requests are served, one after the other, and whatever
    the backend does, the validations keep the tables well formed: if every
    stored name is its own trim and has two code units or more, every stored
    street five or more and every stored city two or more, each its own
    trim, and every stored occupation and number is its own trim, then the
    same holds after the requests.  So it holds of every table that was
    filled through the routes. *)
Theorem serve_keeps_well_formed `{Backend} (requests : list Request) (w : World)
    (Hw : well_formed w) :
  well_formed (snd (serve requests w)).
Proof.
  revert w Hw. induction requests as [| request rest IH]; intros w Hw;
    simpl; [exact Hw |].
  pose proof (handle_keeps_well_formed request w Hw) as Hnext.
  destruct (handle request w) as [answer w1]. simpl in Hnext.
  specialize (IH w1 Hnext).
  destruct (serve rest w1) as [answers w2]. exact IH.
Qed.

Lemma serve_keeps_well_formed_witness :
  well_formed empty_world
  /\ well_formed (snd (@serve plain_backend busy_morning empty_world))
  /\ users (snd (@serve plain_backend busy_morning empty_world))
     = [mkUser 1 (lit "Bia") (Some (lit "dev")) true 0]
  /\ map a_street (addresses (snd (@serve plain_backend busy_morning empty_world)))
     = [lit "Rua Nova"].
Proof.
  assert (Hw : well_formed empty_world) by (split; constructor).
  split; [exact Hw |].
  split; [exact (@serve_keeps_well_formed plain_backend busy_morning
                   empty_world Hw) |].
  split; reflexivity.
Defined.

(** ** One request after another *)

Lemma calls_succeed_faults (n : nat) (w w' : World) :
  faults w' = faults w -> calls_succeed n w -> calls_succeed n w'.
Proof.
  unfold calls_succeed. intros ->. exact (fun H => H).
Qed.

Lemma delete_user_succeeds `{Backend} (id : jstring) (n : nat) (w : World) :
  calls_succeed (S (S n)) w ->
  exists w',
    post_users_delete_id id w = (Returned (redirect root), w')
    /\ users w' = filter (fun u => negb (key_is (Some id) (u_id u))) (users w)
    /\ addresses w'
       = filter (fun a => negb (key_refers (Some id) (a_userId a))) (addresses w)
    /\ faults w' = tl (tl (faults w))
    /\ console w'
       = console w ++
         (if existsb (fun u => key_is (Some id) (u_id u)) (users w)
          then [Log [Text (Usuario ++ lit " " ++ id ++ lit " e seus " ++ endereco
                           ++ lit "s foram exclu" ++ i_acute ++ lit "dos")]]
          else []).
Proof.
  intros Hok.
  pose proof (calls_succeed_next _ _ Hok) as [_ Hok1].
  unfold post_users_delete_id, try_catch, bind.
  rewrite (destroy_where_userId_succeeds (Some id) (S n) w Hok).
  set (w1 := set_addresses _ (next_call w)).
  assert (Hok2 : calls_succeed (S n) w1) by exact Hok1.
  rewrite (user_destroy_succeeds (Some id) n w1 Hok2).
  change (users w1) with (users w).
  assert (Hlog : (0 <? Z.of_nat (List.length
                   (filter (fun u => key_is (Some id) (u_id u)) (users w))))
                 = existsb (fun u => key_is (Some id) (u_id u)) (users w)).
  { induction (users w) as [| u l IH]; [reflexivity |]. simpl.
    destruct (key_is (Some id) (u_id u)); simpl; [| exact IH].
    apply Z.ltb_lt. lia. }
  rewrite Hlog.
  destruct (existsb _ (users w)); eexists; (split; [reflexivity |]);
    repeat split; simpl; rewrite ?app_nil_r; reflexivity.
Qed.

(** X13.  Delete, then look up: once POST /users/delete/:id has gone
    through, GET /users/:id for the same [id] finds no user and shows the
    text for that, and GET /users/edit/:id redirects to the listing root
    (the backend letting the lookup through). *)
Theorem deleted_user_is_not_found `{Backend} (id : jstring) (w : World)
    (Hok : calls_succeed 3 w) :
  exists w2 w3,
    get_users_id id (snd (post_users_delete_id id w))
    = (Returned (render_userview
         (mkUserView None
            (Some (Usuario ++ lit " n" ++ a_tilde ++ lit "o encontrado")))), w2)
    /\ get_users_edit_id id (snd (post_users_delete_id id w))
       = (Returned (redirect root), w3).
Proof.
  destruct (delete_user_succeeds id 1 w Hok) as (w1 & Hrun & Hu & _ & Hf & _).
  rewrite Hrun. simpl.
  assert (Hok1 : calls_succeed 1 w1).
  { unfold calls_succeed in *. rewrite Hf.
    destruct (faults w) as [| f1 [| f2 rest]]; simpl in *; try constructor.
    inversion Hok as [| ? ? _ Hrest]; subst.
    inversion Hrest as [| ? ? _ Hrest']; subst. exact Hrest'. }
  apply calls_succeed_next in Hok1 as [Hhd _].
  assert (Hnone : find (fun u => key_is (Some id) (u_id u)) (users w1) = None).
  { apply find_none. intros u Hin. rewrite Hu in Hin.
    apply filter_In in Hin as [_ Hneg]. apply negb_true_iff. exact Hneg. }
  eexists. eexists. split.
  - unfold get_users_id, try_catch, bind, User.findByPk, storage_call.
    rewrite Hhd. change (users (next_call w1)) with (users w1).
    rewrite Hnone. reflexivity.
  - unfold get_users_edit_id, try_catch, bind, User.findByPk, storage_call.
    rewrite Hhd. change (users (next_call w1)) with (users w1).
    rewrite Hnone. reflexivity.
Qed.

Lemma deleted_user_is_not_found_witness :
  calls_succeed 3 (owning 3)
  /\ fst (@get_users_id plain_backend (lit "7") (owning 3))
     = Returned (render_userview
         (mkUserView
            (Some (owner, [address_of 7 1; address_of 7 2; address_of 7 3]))
            None))
  /\ fst (@get_users_id plain_backend (lit "7")
            (snd (@post_users_delete_id plain_backend (lit "7") (owning 3))))
     = Returned (render_userview
         (mkUserView None
            (Some (Usuario ++ lit " n" ++ a_tilde ++ lit "o encontrado")))).
Proof.
  assert (Hok : calls_succeed 3 (owning 3)) by constructor.
  split; [exact Hok |]. split; [reflexivity |].
  destruct (@deleted_user_is_not_found plain_backend (lit "7") (owning 3) Hok)
    as (w2 & w3 & Hshow & _).
  rewrite Hshow. reflexivity.
Defined.

Lemma filter_keeps_all {A} (f : A -> bool) (l : list A) :
  (forall x, In x l -> f x = true) -> filter f l = l.
Proof.
  induction l as [| x l IH]; intros Hall; simpl; [reflexivity |].
  rewrite (Hall x (or_introl eq_refl)), IH; [reflexivity |].
  intros y Hy. apply Hall. right. exact Hy.
Qed.

(** X14.  POST /users/delete/:id for an identifier that no user has, with a
    backend that lets both calls through: the users are untouched, the
    addresses that refer to the identifier are deleted all the same, and
    nothing is written to the console; when some user has the identifier the
    deletion is written to the console.  The answer is the redirect to the
    listing root in both cases. *)
Theorem delete_user_logs_only_deletions `{Backend} (id : jstring) (w : World)
    (Hok : calls_succeed 2 w) :
  exists w',
    post_users_delete_id id w = (Returned (redirect root), w')
    /\ addresses w'
       = filter (fun a => negb (key_refers (Some id) (a_userId a))) (addresses w)
    /\ ((forall u, In u (users w) -> key_is (Some id) (u_id u) = false) ->
        users w' = users w /\ console w' = console w)
    /\ ((exists u, In u (users w) /\ key_is (Some id) (u_id u) = true) ->
        console w'
        = console w ++
          [Log [Text (Usuario ++ lit " " ++ id ++ lit " e seus " ++ endereco
                      ++ lit "s foram exclu" ++ i_acute ++ lit "dos")]]).
Proof.
  destruct (delete_user_succeeds id 0 w Hok) as (w' & Hrun & Hu & Ha & _ & Hc).
  exists w'. split; [exact Hrun |]. split; [exact Ha |]. split.
  - intros Hnone. split.
    + rewrite Hu. apply filter_keeps_all. intros u Hin.
      rewrite (Hnone u Hin). reflexivity.
    + rewrite Hc.
      replace (existsb (fun u => key_is (Some id) (u_id u)) (users w))
        with false; [apply app_nil_r |].
      symmetry. apply not_true_is_false. intros Hex.
      apply existsb_exists in Hex as (u & Hin & Hhit).
      rewrite (Hnone u Hin) in Hhit. discriminate.
  - intros Hsome. rewrite Hc.
    replace (existsb (fun u => key_is (Some id) (u_id u)) (users w)) with true;
      [reflexivity |].
    symmetry. apply existsb_exists. exact Hsome.
Qed.

Lemma delete_user_logs_only_deletions_witness :
  calls_succeed 2 orphans
  /\ (forall u, In u (users orphans) ->
        @key_is plain_backend (Some (lit "7")) (u_id u) = false)
  /\ @post_users_delete_id plain_backend (lit "7") orphans
     = (Returned (redirect root),
        mkWorld [neighbour] [address_of 8 100] 9 101 200 [] []).
Proof.
  assert (Hok : calls_succeed 2 orphans) by constructor.
  assert (Hnone : forall u, In u (users orphans) ->
                    @key_is plain_backend (Some (lit "7")) (u_id u) = false).
  { intros u [<- | []]. reflexivity. }
  split; [exact Hok |]. split; [exact Hnone |].
  destruct (@delete_user_logs_only_deletions plain_backend (lit "7") orphans Hok)
    as (w' & Hrun & _ & _ & _).
  rewrite Hrun. f_equal.
  apply (f_equal snd) in Hrun. simpl in Hrun. symmetry. exact Hrun.
Defined.

Lemma findByPk_succeeds `{Backend} (id : jstring) (ordered : bool) (n : nat)
    (w : World) :
  calls_succeed (S n) w ->
  User.findByPk id ordered w
  = (Returned
       (match find (fun u => key_is (Some id) (u_id u)) (users w) with
        | Some u =>
            Some (u, if ordered
                     then order_desc a_createdAt (User.addresses_of u (addresses w))
                     else User.addresses_of u (addresses w))
        | None => None
        end),
     next_call w).
Proof.
  intros Hok. unfold User.findByPk.
  rewrite (storage_call_succeeds _ n w Hok).
  change (users (next_call w)) with (users w).
  change (addresses (next_call w)) with (addresses w).
  destruct (find _ (users w)); reflexivity.
Qed.

Lemma find_last {A} (f : A -> bool) (l : list A) (x : A) :
  (forall y, In y l -> f y = false) -> f x = true -> find f (l ++ [x]) = Some x.
Proof.
  induction l as [| y l IH]; intros Hnone Hx; simpl.
  - rewrite Hx. reflexivity.
  - rewrite (Hnone y (or_introl eq_refl)). apply IH; [| exact Hx].
    intros z Hz. apply Hnone. right. exact Hz.
Qed.

Lemma filter_drops_all {A} (f : A -> bool) (l : list A) :
  (forall x, In x l -> f x = false) -> filter f l = [].
Proof.
  induction l as [| x l IH]; intros Hnone; simpl; [reflexivity |].
  rewrite (Hnone x (or_introl eq_refl)). apply IH.
  intros y Hy. apply Hnone. right. exact Hy.
Qed.

Lemma find_rewritten {A} (hit : A -> bool) (f : A -> A) (l : list A) :
  (forall x, hit (f x) = hit x) ->
  find hit (map (fun x => if hit x then f x else x) l)
  = option_map f (find hit l).
Proof.
  intros Hkeep. induction l as [| x l IH]; simpl; [reflexivity |].
  destruct (hit x) eqn:E.
  - rewrite Hkeep, E. reflexivity.
  - rewrite E. exact IH.
Qed.

(** X15.  Create, then look up: after POST /users/create has stored a user,
    GET /users/:id with a key that the backend reads as the new identifier
    shows that user, with the trimmed name, the occupation and the
    newsletter flag that were stored, and no address.  (The identifier is
    new: no user has it and no address refers to it.) *)
Theorem created_user_is_found `{Backend} (body : UserForm) (n key : jstring)
    (w : World)
    (Hname : valid_name (form_name body) = Some n)
    (Hok : calls_succeed 2 w)
    (Hkey : to_key (Some key) = Some (user_seq w))
    (Hfresh : forall u, In u (users w) -> u_id u <> user_seq w)
    (Hfree : forall a, In a (addresses w) -> a_userId a <> Some (user_seq w)) :
  exists w',
    get_users_id key (snd (post_users_create body w))
    = (Returned (render_userview
         (mkUserView
            (Some (mkUser (user_seq w) (trim n)
                     (match present (form_occupation body) with
                      | Some o => Some (trim o)
                      | None => None
                      end)
                     (strict_eq (form_newsletter body) (lit "on")) (now w),
                   []))
            None)), w').
Proof.
  pose proof (calls_succeed_next _ _ Hok) as [_ Hok1].
  unfold post_users_create, try_catch, bind.
  rewrite Hname, (user_create_succeeds _ 1 w Hok).
  unfold console_log, ret. simpl.
  set (row := mkUser _ _ _ _ _).
  set (w1 := set_console _ _).
  assert (Hok2 : calls_succeed 1 w1) by exact Hok1.
  unfold get_users_id, try_catch, bind.
  rewrite (findByPk_succeeds key false 0 w1 Hok2).
  change (users w1) with (users w ++ [row]).
  change (addresses w1) with (addresses w).
  rewrite (find_last _ (users w) row).
  - unfold User.addresses_of. rewrite filter_drops_all.
    + eexists. reflexivity.
    + intros a Hin. specialize (Hfree a Hin). simpl.
      destruct (a_userId a) as [k |]; [| reflexivity].
      apply Z.eqb_neq. congruence.
  - intros u Hin. unfold key_is. rewrite Hkey.
    apply Z.eqb_neq. specialize (Hfresh u Hin). congruence.
  - unfold key_is. rewrite Hkey. apply Z.eqb_refl.
Qed.

Lemma created_user_is_found_witness :
  valid_name (form_name bob_form) = Some (lit "  Bob  ")
  /\ calls_succeed 2 (crowd 2)
  /\ @to_key plain_backend (Some (lit "3")) = Some (user_seq (crowd 2))
  /\ fst (@get_users_id plain_backend (lit "3")
            (snd (post_users_create bob_form (crowd 2))))
     = Returned (render_userview
         (mkUserView (Some (mkUser 3 (lit "Bob") None false 3, [])) None)).
Proof.
  assert (Hname : valid_name (form_name bob_form) = Some (lit "  Bob  "))
    by reflexivity.
  assert (Hok : calls_succeed 2 (crowd 2)) by constructor.
  assert (Hkey : @to_key plain_backend (Some (lit "3")) = Some (user_seq (crowd 2)))
    by reflexivity.
  repeat (split; [assumption |]).
  destruct (@created_user_is_found plain_backend bob_form (lit "  Bob  ")
              (lit "3") (crowd 2) Hname Hok Hkey) as (w' & Hshow).
  - intros u [<- | [<- | []]]; discriminate.
  - intros a [].
  - rewrite Hshow. reflexivity.
Defined.

(** X16.  Update, then look up: after POST /users/update has gone through
    for an id under which a user is found, GET /users/:id for that id shows
    the same user (same identifier, same creation time, same addresses) with
    the trimmed name, the occupation and the newsletter flag of the
    request. *)
Theorem updated_user_is_shown `{Backend} (body : UpdateForm) (n key : jstring)
    (u : UserRow) (w : World)
    (Hid : update_id body = Some key)
    (Hname : valid_name (update_name body) = Some n)
    (Hfound : find (fun u => key_is (Some key) (u_id u)) (users w) = Some u)
    (Hok : calls_succeed 2 w) :
  exists w',
    get_users_id key (snd (post_users_update body w))
    = (Returned (render_userview
         (mkUserView
            (Some (mkUser (u_id u) (trim n)
                     (match present (update_occupation body) with
                      | Some o => Some (trim o)
                      | None => None
                      end)
                     (strict_eq (update_newsletter body) (lit "on"))
                     (u_createdAt u),
                   User.addresses_of u (addresses w)))
            None)), w').
Proof.
  pose proof (calls_succeed_next _ _ Hok) as [_ Hok1].
  set (data := user_data n (update_occupation body) (update_newsletter body)).
  assert (Hrun : exists w1,
    snd (post_users_update body w) = w1
    /\ users w1 = map (fun u => if key_is (Some key) (u_id u)
                                then User.write data u else u) (users w)
    /\ addresses w1 = addresses w
    /\ calls_succeed 1 w1).
  { unfold post_users_update, try_catch, bind.
    rewrite Hname, Hid. fold data.
    rewrite (user_update_succeeds data key 1 w Hok).
    destruct (0 <? _); eexists; (split; [reflexivity |]);
      repeat split; exact Hok1. }
  destruct Hrun as (w1 & -> & Hu & Ha & Hok2).
  unfold get_users_id, try_catch, bind.
  rewrite (findByPk_succeeds key false 0 w1 Hok2), Hu, Ha.
  rewrite (find_rewritten (fun u => key_is (Some key) (u_id u)) (User.write data))
    by reflexivity.
  rewrite Hfound. simpl. eexists. reflexivity.
Qed.

Lemma updated_user_is_shown_witness :
  update_id rename_update = Some (lit "2")
  /\ valid_name (update_name rename_update) = Some (lit " Bia ")
  /\ find (fun u => @key_is plain_backend (Some (lit "2")) (u_id u))
       (users (crowd 3))
     = Some (mkUser 2 (lit "Ana") None true 2)
  /\ calls_succeed 2 (crowd 3)
  /\ fst (@get_users_id plain_backend (lit "2")
            (snd (@post_users_update plain_backend rename_update (crowd 3))))
     = Returned (render_userview
         (mkUserView
            (Some (mkUser 2 (lit "Bia") (Some (lit "dev")) true 2, [])) None)).
Proof.
  assert (Hid : update_id rename_update = Some (lit "2")) by reflexivity.
  assert (Hname : valid_name (update_name rename_update) = Some (lit " Bia "))
    by reflexivity.
  assert (Hfound : find (fun u => @key_is plain_backend (Some (lit "2")) (u_id u))
                     (users (crowd 3))
                   = Some (mkUser 2 (lit "Ana") None true 2)) by reflexivity.
  assert (Hok : calls_succeed 2 (crowd 3)) by constructor.
  repeat (split; [assumption |]).
  destruct (@updated_user_is_shown plain_backend rename_update (lit " Bia ")
              (lit "2") _ (crowd 3) Hid Hname Hfound Hok) as (w' & Hshow).
  rewrite Hshow. reflexivity.
Defined.

(** X17.  Create an address, then open the edit page: after
    POST /address/create has gone through with the userId under which a
    user is found, GET /users/edit/:id for that id shows the user with the
    addresses it had and the new one, which holds the trimmed street and
    city and the user's identifier. *)
Theorem created_address_is_listed `{Backend} (body : AddressForm)
    (s c key : jstring) (u : UserRow) (w : World)
    (Hid : form_userId body = Some key)
    (Hvalid : valid_address (form_street body) (form_city body) = Some (s, c))
    (Hfound : find (fun u => key_is (Some key) (u_id u)) (users w) = Some u)
    (Hok : calls_succeed 2 w) :
  exists shown w',
    get_users_edit_id key (snd (post_address_create body w))
    = (Returned (render_useredit (u, shown)), w')
    /\ forall a,
         In a shown
         <-> In a (User.addresses_of u (addresses w))
             \/ a = mkAddress (address_seq w) (trim s)
                      (match present (form_number body) with
                       | Some m => Some (trim m)
                       | None => None
                       end)
                      (trim c) (Some (u_id u)) (now w).
Proof.
  pose proof (calls_succeed_next _ _ Hok) as [_ Hok1].
  assert (Hkey : to_key (Some key) = Some (u_id u)).
  { apply find_some in Hfound as [_ Hhit]. unfold key_is in Hhit.
    destruct (to_key (Some key)) as [k |]; [| discriminate].
    apply Z.eqb_eq in Hhit. congruence. }
  unfold post_address_create, try_catch, bind.
  rewrite Hvalid, Hid.
  rewrite (address_create_succeeds _ 1 w Hok).
  unfold console_log, ret. simpl.
  rewrite Hkey.
  set (row := mkAddress _ _ _ _ _ _).
  set (w1 := set_console _ _).
  assert (Hok2 : calls_succeed 1 w1) by exact Hok1.
  unfold get_users_edit_id, try_catch, bind.
  rewrite (findByPk_succeeds key true 0 w1 Hok2).
  change (users w1) with (users w).
  change (addresses w1) with (addresses w ++ [row]).
  rewrite Hfound. eexists. eexists. split; [reflexivity |].
  intros a. rewrite In_order_desc. unfold User.addresses_of.
  rewrite filter_app, in_app_iff. simpl. rewrite Z.eqb_refl. simpl.
  intuition congruence.
Qed.

Lemma created_address_is_listed_witness :
  form_userId good_address_form = Some (lit "7")
  /\ valid_address (form_street good_address_form) (form_city good_address_form)
     = Some (lit "  Rua Nova ", lit " Faro ")
  /\ find (fun u => @key_is plain_backend (Some (lit "7")) (u_id u))
       (users (owning 1)) = Some owner
  /\ calls_succeed 2 (owning 1)
  /\ exists shown,
       fst (@get_users_edit_id plain_backend (lit "7")
              (snd (@post_address_create plain_backend good_address_form
                      (owning 1))))
       = Returned (render_useredit (owner, shown))
       /\ In (mkAddress 101 (lit "Rua Nova") None (lit "Faro") (Some 7) 200) shown
       /\ In (address_of 7 1) shown.
Proof.
  assert (Hid : form_userId good_address_form = Some (lit "7")) by reflexivity.
  assert (Hvalid : valid_address (form_street good_address_form)
                     (form_city good_address_form)
                   = Some (lit "  Rua Nova ", lit " Faro ")) by reflexivity.
  assert (Hfound : find (fun u => @key_is plain_backend (Some (lit "7")) (u_id u))
                     (users (owning 1)) = Some owner) by reflexivity.
  assert (Hok : calls_succeed 2 (owning 1)) by constructor.
  repeat (split; [assumption |]).
  destruct (@created_address_is_listed plain_backend good_address_form _ _
              (lit "7") owner (owning 1) Hid Hvalid Hfound Hok)
    as (shown & w' & Hshow & Hin).
  exists shown. split; [rewrite Hshow; reflexivity |]. split.
  - apply Hin. right. reflexivity.
  - apply Hin. left. left. reflexivity.
Defined.

Lemma range_entries_witness :
  safe_integer 1 /\ safe_integer 3 /\ 3 - 1 + 1 <= max_array_length
  /\ (2 < List.length (range 1 3))%nat
  /\ nth 2 (range 1 3) 0 = 3
  /\ 1 <= 2 <= 3
  /\ In 2 (range 1 3)
  /\ safe_integer 5 /\ safe_integer 2 /\ 2 - 5 + 1 <= max_array_length
  /\ 2 < 5
  /\ range 5 2 = [].
Proof.
  assert (Hsafe : forall z, 1 <= z <= 5 -> safe_integer z)
    by (intros z Hz; unfold safe_integer, max_safe_integer; lia).
  assert (H13 : 3 - 1 + 1 <= max_array_length)
    by (unfold max_array_length; lia).
  assert (H52 : 2 - 5 + 1 <= max_array_length)
    by (unfold max_array_length; lia).
  destruct (range_entries 1 3 (Hsafe 1 ltac:(lia)) (Hsafe 3 ltac:(lia)) H13)
    as (Hlen & Hnth & Hin & _).
  assert (Hi : (2 < List.length (range 1 3))%nat) by (rewrite Hlen; simpl; lia).
  assert (Hx : 1 <= 2 <= 3) by lia.
  assert (Hlt : 2 < 5) by lia.
  split; [exact (Hsafe 1 ltac:(lia)) |]. split; [exact (Hsafe 3 ltac:(lia)) |].
  split; [exact H13 |].
  split; [exact Hi |]. split; [exact (Hnth 2%nat Hi) |].
  split; [exact Hx |]. split; [exact (proj2 (Hin 2) Hx) |].
  split; [exact (Hsafe 5 ltac:(lia)) |]. split; [exact (Hsafe 2 ltac:(lia)) |].
  split; [exact H52 |]. split; [exact Hlt |].
  exact (proj2 (proj2 (proj2 (proj2
           (range_entries 5 2 (Hsafe 5 ltac:(lia)) (Hsafe 2 ltac:(lia)) H52))))
           Hlt).
Defined.
